(** * Verification of the parser-synthesis agent

    A shallow embedding of [agent.py] (the verification step [test_parser]
    and the retry loop of [main]), of the harness [test_parser.py] and of the
    numeric normalisation of [custom_parsers/icici_parser.py], with the
    properties of the design document stated over it.

    The tabular library and the interpreter's built-ins are not part of the
    repository; the fragments the program relies on are modelled in the
    modules [Python] and [Pandas] below, following their documented
    behaviour. *)

From Stdlib Require Import String Ascii List Bool Arith ZArith QArith Qabs Lia.
From Stdlib Require Import Permutation.
From Stdlib Require Import DecimalString.
Import ListNotations.

Local Close Scope Q_scope.
Local Open Scope nat_scope.
Local Open Scope list_scope.
Local Open Scope string_scope.

(* ================================================================== *)
(** * Built-ins of the interpreter *)

Module Python.

(** Decimal rendering of a natural number, as [str(n)] prints it. *)
Definition str_nat (n : nat) : string :=
  NilEmpty.string_of_uint (Nat.to_uint n).

(** [repr] of a pair of naturals, e.g. [(3, 5)]. *)
Definition repr_pair (p : nat * nat) : string :=
  "(" ++ str_nat (fst p) ++ ", " ++ str_nat (snd p) ++ ")".

(** An error: an instance of [Exception], described by its class name and
    by the text [str(e)]. *)
Record pyerror : Type := mk_error { err_class : string; err_str : string }.

(** The argument of [sys.exit]: an integer, [None] (also when no argument
    is given), or any other object, of which the interpreter prints the
    text. *)
Inductive exit_argument : Type :=
| ExitInt (n : Z)
| ExitNone
| ExitObject (text : string).

(** What running code can raise.  An error is an instance of [Exception].
    The other three are not, and so pass every [except Exception] handler:
    the [SystemExit] of [sys.exit(status)] (or of a class derived from it),
    [KeyboardInterrupt] itself, and an instance of any other class outside
    [Exception] ([GeneratorExit], a class derived from [BaseException] or
    from [KeyboardInterrupt] by the code).  The libraries the program calls
    are taken to raise errors only; generated code can raise any of the
    four. *)
Inductive raised : Type :=
| Error (e : pyerror)
| SystemExit (status : exit_argument)
| KeyboardInterrupt
| BaseError (e : pyerror).


(** How a piece of the program ends: with a value, or by a raise. *)
Inductive evaluation (A : Type) : Type :=
| Returns (a : A)
| Raises (x : raised).
Arguments Returns {A} a.
Arguments Raises {A} x.

(** One statement after another: a raise ends the sequence. *)
Definition bind {A B : Type} (c : evaluation A) (k : A -> evaluation B) : evaluation B :=
  match c with
  | Returns a => k a
  | Raises x => Raises x
  end.

Notation "x <- c ;; k" := (bind c (fun x => k))
  (at level 61, c at next level, right associativity).

(** [str] of the [SyntaxError] the compiler raises for a source file: the
    message followed by the file's base name and the line. *)
Definition SyntaxError (msg file : string) (line : nat) : pyerror :=
  mk_error "SyntaxError" (msg ++ " (" ++ file ++ ", line " ++ str_nat line ++ ")").

Definition AttributeError (msg : string) : pyerror :=
  mk_error "AttributeError" msg.

Definition KeyError (key : string) : pyerror :=
  mk_error "KeyError" ("'" ++ key ++ "'").

(** The [TypeError] of calling an object of type [ty] that is not
    callable. *)
Definition not_callable (ty : string) : pyerror :=
  mk_error "TypeError" ("'" ++ ty ++ "' object is not callable").

(** Equality of lists by a boolean equality on the elements. *)
Fixpoint list_eqb {A : Type} (eqb : A -> A -> bool) (l1 l2 : list A) : bool :=
  match l1, l2 with
  | [], [] => true
  | x :: l1', y :: l2' => eqb x y && list_eqb eqb l1' l2'
  | _, _ => false
  end.

(** A binary64 float: not-a-number, an infinity, or a finite value given by
    its sign and its magnitude, a rational that [binary64] below returns
    in lowest terms (the sign is kept apart so that [-0.0] exists). *)
Inductive pyfloat : Type :=
| FNaN
| FInf (neg : bool)
| FNum (neg : bool) (mag : Q).

Definition signed (neg : bool) (q : Q) : Q := if neg then Qopp q else q.

(** [x == y] on floats: NaN equals nothing, the two zeros are equal. *)
Definition float_eq (x y : pyfloat) : bool :=
  match x, y with
  | FInf a, FInf b => Bool.eqb a b
  | FNum a p, FNum b q => Qeq_bool (signed a p) (signed b q)
  | _, _ => false
  end.

(** Characters are code points below 256.  [is_space] is [str.isspace] on
    them. *)
Definition is_space (c : ascii) : bool :=
  let n := nat_of_ascii c in
  (Nat.leb 9 n && Nat.leb n 13) || (Nat.leb 28 n && Nat.leb n 32)
  || Nat.eqb n 133 || Nat.eqb n 160.

Fixpoint lstrip (s : string) : string :=
  match s with
  | EmptyString => EmptyString
  | String c s' => if is_space c then lstrip s' else s
  end.

Fixpoint rstrip (s : string) : string :=
  match s with
  | EmptyString => EmptyString
  | String c s' =>
      match rstrip s' with
      | EmptyString => if is_space c then EmptyString else String c EmptyString
      | r => String c r
      end
  end.

(** [s.strip()]. *)
Definition strip (s : string) : string := rstrip (lstrip s).

(** [s.replace(c, '')] for a one-character [c]. *)
Fixpoint remove_char (c : ascii) (s : string) : string :=
  match s with
  | EmptyString => EmptyString
  | String d s' => if Ascii.eqb d c then remove_char c s' else String d (remove_char c s')
  end.

(** The last character of a string. *)
Fixpoint last_char (s : string) : option ascii :=
  match s with
  | EmptyString => None
  | String c EmptyString => Some c
  | String _ s' => last_char s'
  end.

(** Truth value of an optional string: [None] and the empty string are
    false. *)
Definition truthy (v : option string) : bool :=
  match v with
  | Some (String _ _) => true
  | _ => false
  end.

(** ** [float(s)] on a string *)

(** Nearest integer to [n / d], ties to even ([0 <= n], [0 < d]). *)
Definition round_half_even (n d : Z) : Z :=
  let q := (n / d)%Z in
  match (2 * (n mod d) ?= d)%Z with
  | Lt => q
  | Gt => (q + 1)%Z
  | Eq => if Z.even q then q else (q + 1)%Z
  end.

(** The binary64 value nearest to the non-negative rational [q], ties to
    even: 53 significant bits, least exponent -1074, overflow to an
    infinity from 2^1024 on. *)
Definition binary64 (neg : bool) (q : Q) : pyfloat :=
  let n := Qnum q in
  let d := Zpos (Qden q) in
  if (n =? 0)%Z then FNum neg (0 # 1)
  else
    let k := (Z.log2 n - Z.log2 d)%Z in
    let above := if (0 <=? k)%Z then (d * 2 ^ k <=? n)%Z else (d <=? n * 2 ^ (- k))%Z in
    let e := if above then k else (k - 1)%Z in
    let p := Z.max (e - 52) (-1074) in
    if (0 <=? p)%Z then
      let v := (round_half_even n (d * 2 ^ p) * 2 ^ p)%Z in
      if (2 ^ 1024 <=? v)%Z then FInf neg else FNum neg (inject_Z v)
    else
      FNum neg (Qred (round_half_even (n * 2 ^ (- p)) d # Z.to_pos (2 ^ (- p)))).

Definition is_digit (c : ascii) : bool :=
  let n := nat_of_ascii c in Nat.leb 48 n && Nat.leb n 57.

Definition digit_value (c : ascii) : Z := (Z.of_nat (nat_of_ascii c) - 48)%Z.

(** The blanks [float] drops at both ends. *)
Definition float_is_space (c : ascii) : bool :=
  let n := nat_of_ascii c in
  (Nat.leb 9 n && Nat.leb n 13) || Nat.eqb n 32 || Nat.eqb n 133 || Nat.eqb n 160.

Fixpoint float_lstrip (s : string) : string :=
  match s with
  | EmptyString => EmptyString
  | String c s' => if float_is_space c then float_lstrip s' else s
  end.

Fixpoint float_rstrip (s : string) : string :=
  match s with
  | EmptyString => EmptyString
  | String c s' =>
      match float_rstrip s' with
      | EmptyString => if float_is_space c then EmptyString else String c EmptyString
      | r => String c r
      end
  end.

(** Underscores may only stand between two digits; they are dropped.
    [None] when one is misplaced. *)
Fixpoint drop_underscores (prev : ascii) (s : string) : option string :=
  match s with
  | EmptyString => if Ascii.eqb prev "_" then None else Some EmptyString
  | String c s' =>
      if Ascii.eqb c "_" then
        if is_digit prev then drop_underscores c s' else None
      else if Ascii.eqb prev "_" && negb (is_digit c) then None
      else option_map (String c) (drop_underscores c s')
  end.

(** An optional sign. *)
Definition take_sign (s : string) : bool * string :=
  match s with
  | String c s' =>
      if Ascii.eqb c "-" then (true, s')
      else if Ascii.eqb c "+" then (false, s')
      else (false, s)
  | EmptyString => (false, s)
  end.

(** The leading digits of [s]: the number they continue from [acc], how
    many they are, and what follows them. *)
Fixpoint scan_digits (acc : Z) (count : nat) (s : string) : Z * nat * string :=
  match s with
  | String c s' =>
      if is_digit c then scan_digits (10 * acc + digit_value c)%Z (S count) s'
      else (acc, count, s)
  | EmptyString => (acc, count, s)
  end.

(** A decimal literal [digits [. digits] [e [sign] digits]] with at least
    one digit before the exponent, up to the end of the string: its digits
    as an integer [m] and a power of ten [e], the value being [m * 10^e]. *)
Definition parse_decimal (s : string) : option (Z * Z) :=
  let '(m1, n1, r1) := scan_digits 0 0 s in
  let '(m2, n2, r2) :=
    match r1 with
    | String "." r => scan_digits m1 0 r
    | _ => (m1, 0, r1)
    end in
  if Nat.eqb (n1 + n2) 0 then None
  else
    match r2 with
    | EmptyString => Some (m2, (- Z.of_nat n2)%Z)
    | String c r3 =>
        if Ascii.eqb c "e" || Ascii.eqb c "E" then
          let '(eneg, r4) := take_sign r3 in
          let '(x, nx, r5) := scan_digits 0 0 r4 in
          match nx, r5 with
          | S _, EmptyString =>
              Some (m2, ((if eneg then - x else x) - Z.of_nat n2)%Z)
          | _, _ => None
          end
        else None
    end.

Definition lower (c : ascii) : ascii :=
  let n := nat_of_ascii c in
  if Nat.leb 65 n && Nat.leb n 90 then ascii_of_nat (n + 32) else c.

Fixpoint lowercase (s : string) : string :=
  match s with
  | EmptyString => EmptyString
  | String c s' => String (lower c) (lowercase s')
  end.

(** The rational [m * 10^e] for [0 <= m]. *)
Definition scaled (m e : Z) : Q :=
  if (0 <=? e)%Z then inject_Z (m * 10 ^ e) else (m # Z.to_pos (10 ^ (- e))).

(** [float(s)]; [None] stands for the [ValueError] of a string that is not
    a number. *)
Definition float (s : string) : option pyfloat :=
  match float_rstrip (float_lstrip s) with
  | EmptyString => None
  | t =>
      match drop_underscores zero t with
      | None => None
      | Some u =>
          let '(neg, body) := take_sign u in
          let name := lowercase body in
          if String.eqb name "inf" || String.eqb name "infinity" then Some (FInf neg)
          else if String.eqb name "nan" then Some FNaN
          else
            match parse_decimal body with
            | Some (m, e) => Some (binary64 neg (scaled m e))
            | None => None
            end
      end
  end.

End Python.

(* ================================================================== *)
(** * The tabular library *)

Module Pandas.
Import Python.

(** A cell of a table. *)
Inductive cell : Type :=
| CNone
| CFloat (f : pyfloat)
| CInt (z : Z)
| CStr (s : string).

(** Declared element type of a column. *)
Inductive dtype : Type := int64 | float64 | object | bool_ | datetime64.

Definition dtype_eqb (a b : dtype) : bool :=
  match a, b with
  | int64, int64 | float64, float64 | object, object
  | bool_, bool_ | datetime64, datetime64 => true
  | _, _ => false
  end.

Record Series : Type := mk_series { s_dtype : dtype; s_values : list cell }.

(** A table: named columns in their declared order (names may repeat) and
    the row labels. *)
Record DataFrame : Type :=
  mk_frame { columns : list (string * Series); index : list Z }.

Definition column_names (df : DataFrame) : list string := map fst (columns df).

(** [df.shape]: rows, then columns. *)
Definition shape (df : DataFrame) : nat * nat :=
  (length (index df), length (columns df)).

Definition RangeIndex (n : nat) : list Z := map Z.of_nat (seq 0 n).

(** [df.reset_index(drop=True)]: the row labels become 0, 1, ..., n-1. *)
Definition reset_index (df : DataFrame) : DataFrame :=
  mk_frame (columns df) (RangeIndex (length (index df))).

Definition isna (c : cell) : bool :=
  match c with
  | CNone | CFloat FNaN => true
  | _ => false
  end.

(** [x == y] on cells. *)
Definition cell_eq (x y : cell) : bool :=
  match x, y with
  | CNone, CNone => true
  | CFloat f, CFloat g => float_eq f g
  | CInt a, CInt b => Z.eqb a b
  | CInt a, CFloat g => float_eq (FNum false (inject_Z a)) g
  | CFloat f, CInt b => float_eq f (FNum false (inject_Z b))
  | CStr s, CStr t => String.eqb s t
  | _, _ => false
  end.

(** Element comparison of [array_equivalent]: equal, or missing on both
    sides. *)
Definition cell_equivalent (x y : cell) : bool :=
  (isna x && isna y) || cell_eq x y.

(** [array_equals]: the element types must be the same, then the values
    are compared position by position. *)
Definition array_equals (a b : Series) : bool :=
  dtype_eqb (s_dtype a) (s_dtype b)
  && list_eqb cell_equivalent (s_values a) (s_values b).

(** [Index.equals] on labels. *)
Definition Index_equals {A : Type} (eqb : A -> A -> bool) (i j : list A) : bool :=
  list_eqb eqb i j.

(** [DataFrame.equals]: same column labels in the same order, same row
    labels, and column by column the same element type and values. *)
Definition DataFrame_equals (a b : DataFrame) : bool :=
  Index_equals String.eqb (column_names a) (column_names b)
  && Index_equals Z.eqb (index a) (index b)
  && list_eqb array_equals (map snd (columns a)) (map snd (columns b)).

(** What [df[col]] evaluates to: a column when the label occurs once, a
    sub-table when it occurs several times. *)
Inductive item : Type :=
| ItemSeries (idx : list Z) (s : Series)
| ItemFrame (df : DataFrame).

(** [df[col]]; [None] stands for the [KeyError] of an absent label. *)
Definition getitem (df : DataFrame) (col : string) : option item :=
  match filter (fun c => String.eqb (fst c) col) (columns df) with
  | [] => None
  | [c] => Some (ItemSeries (index df) (snd c))
  | cs => Some (ItemFrame (mk_frame cs (index df)))
  end.

(** [x.equals(y)] on the results of [df[col]]: objects of different kinds
    are never equal. *)
Definition item_equals (x y : item) : bool :=
  match x, y with
  | ItemSeries i s, ItemSeries j t => Index_equals Z.eqb i j && array_equals s t
  | ItemFrame a, ItemFrame b => DataFrame_equals a b
  | _, _ => false
  end.

(** [col in df.columns]. *)
Definition contains (df : DataFrame) (col : string) : bool :=
  existsb (String.eqb col) (column_names df).

(** [result_df[col].equals(expected_df[col])], the test of the loop once
    the label is known to be in the result. *)
Definition column_agrees (result expected : DataFrame) (col : string) : bool :=
  match getitem result col, getitem expected col with
  | Some r, Some e => item_equals r e
  | _, _ => false
  end.

(** The two tables hold equivalent values position by position, whatever
    the declared element types. *)
Definition same_values (a b : DataFrame) : bool :=
  list_eqb (fun s t => list_eqb cell_equivalent (s_values s) (s_values t))
           (map snd (columns a)) (map snd (columns b)).

End Pandas.

(* ================================================================== *)
(** * agent.py *)

Module Agent.
Import Python Pandas.

(** The text assigned to [diff] in [test_parser]. *)
Inductive difference : Type :=
| NoDifference
| ShapeMismatch (result expected : nat * nat)
| MissingColumn (col : string)
| ColumnMismatch (col : string).

Definition diff_text (d : difference) : string :=
  match d with
  | NoDifference => EmptyString
  | ShapeMismatch r e =>
      "Shape mismatch: Result " ++ repr_pair r ++ " vs Expected " ++ repr_pair e
  | MissingColumn col => "Missing column: " ++ col
  | ColumnMismatch col => "Column " ++ col ++ " doesn't match"
  end.

(** The loop [for col in expected_df.columns] of [test_parser], leaving at
    the first column that is absent or differs. *)
Fixpoint check_columns (result expected : DataFrame) (cols : list string)
  : evaluation difference :=
  match cols with
  | [] => Returns NoDifference
  | col :: rest =>
      if negb (contains result col) then Returns (MissingColumn col)
      else
        match getitem result col, getitem expected col with
        | Some r, Some e =>
            if item_equals r e then check_columns result expected rest
            else Returns (ColumnMismatch col)
        | _, _ => Raises (Error (KeyError col))
        end
  end.

(** The [else] branch of the comparison: the shapes first, the columns
    only when the shapes agree. *)
Definition find_difference (result expected : DataFrame) : evaluation difference :=
  if negb (Nat.eqb (fst (shape result)) (fst (shape expected))
           && Nat.eqb (snd (shape result)) (snd (shape expected)))
  then Returns (ShapeMismatch (shape result) (shape expected))
  else check_columns result expected (column_names expected).

(** An object that is no table but answers [reset_index] itself (a
    [Series], an instance of a class of the generated code) is described
    by what its own methods make of the statements that use it.

    In [test_parser] of [agent.py], after [reset_index]: its [equals] and,
    when that is false, its [shape], [columns] and [__getitem__] are
    called.  One of them raises; or [equals] answers true; or it answers
    false and the text [diff] is assigned as recorded (it is empty when no
    branch assigns it). *)
Inductive foreign_comparison : Type :=
| ComparisonRaises (x : raised)
| ComparesEqual
| ComparesDifferent (diff : string).

(** In the harness of [test_parser.py], after [reset_index] and the read
    of the reference: the three assertions pass, or one fails with its
    message, or a method they call raises. *)
Inductive foreign_assertions : Type :=
| AssertionsRaise (x : raised)
| AssertionsPass
| AssertionFails (message : string).

(** Its [reset_index(drop=True)] raises, or returns an object with which
    the two programs go on as recorded. *)
Inductive foreign_reset : Type :=
| ResetRaises (x : raised)
| ResetReturns (compared : foreign_comparison) (asserted : foreign_assertions).

(** What the generated module's [parse(pdf_path)] gives when it returns: a
    table; an object without the attribute [reset_index] ([None], a list,
    a string, ...), given by the name of its type; or an object of another
    type that answers [reset_index].  The program makes no test of the
    type. *)
Inductive pyobject : Type :=
| Frame (df : DataFrame)
| NoResetIndex (type_name : string)
| Foreign (reset : foreign_reset).

(** What the call [parser_module.parse(pdf_path)] does once the attribute
    is there.  Generated code that does not return, or that ends the
    process without raising ([os._exit]), is not described. *)
Inductive call_outcome : Type :=
| Raised (x : raised)
| Returned (v : pyobject).

(** What executing the generated source as a module gives: a raise (a
    [SyntaxError] when it does not compile, or whatever its top-level code
    raises), or a module, with what the call of its [parse] on the sample
    does; [None] is a module without the attribute [parse]. *)
Inductive load_outcome : Type :=
| LoadRaised (x : raised)
| Loaded (parse : option call_outcome).

(** What [pd.read_csv(expected_csv_path)] gives. *)
Inductive read_outcome : Type :=
| ReadRaised (e : pyerror)
| ReadOk (df : DataFrame).

(** [spec.loader.exec_module(parser_module)]. *)
Definition exec_module_step (load : load_outcome) : evaluation (option call_outcome) :=
  match load with
  | LoadRaised x => Raises x
  | Loaded m => Returns m
  end.

(** [parser_module.parse(pdf_path)]: the attribute is looked up, then
    called. *)
Definition call_parse (m : option call_outcome) : evaluation pyobject :=
  match m with
  | None => Raises (Error (AttributeError "module 'custom_parser' has no attribute 'parse'"))
  | Some (Raised x) => Raises x
  | Some (Returned v) => Returns v
  end.

Definition read_step (csv : read_outcome) : evaluation DataFrame :=
  match csv with
  | ReadRaised e => Raises (Error e)
  | ReadOk df => Returns df
  end.

(** The comparison of [test_parser], on the two tables after
    [reset_index(drop=True)]: the pair it returns. *)
Definition compare_frames (result expected : DataFrame) : evaluation (bool * string) :=
  if DataFrame_equals result expected then Returns (true, "Parser test passed!")
  else
    diff <- find_difference result expected ;;
    Returns (false, "Parser test failed. " ++ diff_text diff).

(** The same statements on an object that is no table. *)
Definition compare_foreign (reset : foreign_reset) : evaluation (bool * string) :=
  match reset with
  | ResetRaises x => Raises x
  | ResetReturns (ComparisonRaises x) _ => Raises x
  | ResetReturns ComparesEqual _ => Returns (true, "Parser test passed!")
  | ResetReturns (ComparesDifferent diff) _ =>
      Returns (false, "Parser test failed. " ++ diff)
  end.

(** What follows the read of the reference: [reset_index(drop=True)] on
    whatever [parse] returned and on the reference, then the comparison.
    The attribute [reset_index] is looked up on the result without any
    test of its type. *)
Definition compare_result (result : pyobject) (expected_df : DataFrame)
  : evaluation (bool * string) :=
  match result with
  | Frame df => compare_frames (reset_index df) (reset_index expected_df)
  | NoResetIndex ty =>
      Raises (Error (AttributeError ("'" ++ ty ++ "' object has no attribute 'reset_index'")))
  | Foreign reset => compare_foreign reset
  end.

(** The body of the [try] of [test_parser], statement by statement. *)
Definition test_parser_body (load : load_outcome) (csv : read_outcome)
  : evaluation (bool * string) :=
  parser_module <- exec_module_step load ;;
  result <- call_parse parser_module ;;
  expected_df <- read_step csv ;;
  compare_result result expected_df.

(** How a call of [test_parser] ends: with the pair it returns, or with a
    raise that its handler does not catch. *)
Inductive test_outcome : Type :=
| Verdict (success : bool) (message : string)
| Uncaught (x : raised).

(** The handler [except Exception as e] around the body: an error becomes
    a failed verdict carrying [str(e)]; a raise that is no [Exception]
    ([SystemExit], [KeyboardInterrupt], ...) goes on. *)
Definition handled (body : evaluation (bool * string)) : test_outcome :=
  match body with
  | Returns (success, message) => Verdict success message
  | Raises (Error e) => Verdict false ("Error testing parser: " ++ err_str e)
  | Raises x => Uncaught x
  end.

(** [test_parser(parser_path, pdf_path, expected_csv_path)]. *)
Definition test_parser (load : load_outcome) (csv : read_outcome) : test_outcome :=
  handled (test_parser_body load csv).

(** [verify] of the design document on a candidate that produced a table
    and a reference that was read. *)
Definition verify (result reference : DataFrame) : test_outcome :=
  test_parser (Loaded (Some (Returned (Frame result)))) (ReadOk reference).

(** ** The one-time analysis of the samples *)

(** What [page.extract_text()] does on one page. *)
Inductive page_outcome : Type :=
| PageRaised (e : pyerror)
| PageText (t : option string).

(** What [pdfplumber.open(pdf_path)] gives: an error, or the document's
    pages in order. *)
Inductive pdf_outcome : Type :=
| OpenRaised (e : pyerror)
| Opened (pages : list page_outcome).

(** The loop over the pages: a non-empty page text is appended with a
    newline; an error anywhere abandons the extraction. *)
Fixpoint extract_pages (pages : list page_outcome) (text : string) : option string :=
  match pages with
  | [] => Some text
  | PageRaised _ :: _ => None
  | PageText t :: rest =>
      if truthy t
      then extract_pages rest (text ++ match t with Some p => p | None => EmptyString end
                                    ++ String (ascii_of_nat 10) EmptyString)
      else extract_pages rest text
  end.

(** [extract_text_from_pdf(pdf_path)]; [None] when anything was raised. *)
Definition extract_text_from_pdf (pdf : pdf_outcome) : option string :=
  match pdf with
  | OpenRaised _ => None
  | Opened pages => extract_pages pages EmptyString
  end.

(** The entries [columns], [dtypes] and [shape] of the dictionary
    [schema_info].  Its entry [sample], the printed form of
    [df.head(10)], goes only into the prompt and is left out. *)
Record schema_info : Type := mk_schema {
  schema_columns : list string;
  schema_dtypes : list (string * dtype);
  schema_shape : nat * nat
}.

(** [analyze_csv_file(csv_path)]; [None] stands for the pair
    [(None, None)] returned when reading failed. *)
Definition analyze_csv_file (csv : read_outcome) : option (DataFrame * schema_info) :=
  match csv with
  | ReadRaised _ => None
  | ReadOk df =>
      Some (df, mk_schema (column_names df)
                          (map (fun c => (fst c, s_dtype (snd c))) (columns df))
                          (shape df))
  end.

(** ** Synthesis *)

(** What the provider's [generate_content(prompt)] gives. *)
Inductive provider_outcome : Type :=
| ProviderRaised (e : pyerror)
| ProviderText (text : string).

Definition fence_python : string := "```python".
Definition fence : string := "```".

(** [re.sub(r'```python|```', '', code)]: scanning from the left, a match
    of the first alternative, else of the second, is dropped.  [skip]
    counts the characters of a match still to drop. *)
Fixpoint remove_fences (skip : nat) (s : string) : string :=
  match s with
  | EmptyString => EmptyString
  | String c s' =>
      match skip with
      | S k => remove_fences k s'
      | O =>
          if String.prefix fence_python s then remove_fences 8 s'
          else if String.prefix fence s then remove_fences 2 s'
          else String c (remove_fences 0 s')
      end
  end.

(** [generate_parser_code(...)]: the provider's answer without its fence
    markers and surrounding blanks, or [None] when the call raised. *)
Definition generate_parser_code (response : provider_outcome) : option string :=
  match response with
  | ProviderRaised _ => None
  | ProviderText text => Some (strip (remove_fences 0 text))
  end.

(** ** The retry loop of [main] *)

(** What [open(output_path, 'w')] followed by [f.write(parser_code)] does:
    the code is written; or [open] raises and the file is as it was; or
    the file is opened, which empties it, and the write raises, leaving in
    it [kept], the part of the text that got there (nothing when the text
    cannot be encoded). *)
Inductive write_outcome : Type :=
| Written
| NotOpened (e : pyerror)
| WriteRaised (e : pyerror) (kept : string).

(** Everything [main] observes of its surroundings.  Attempts are numbered
    from 1; [read_csv 0] is the read of the one-time analysis and
    [read_csv k] the read made by the test of attempt [k].
    [write_file k src] is what writing [src] to the artifact path does at
    attempt [k], and [exec_module k src] what loading and running the
    artifact gives at attempt [k] when its content is [src]. *)
Record environment : Type := mk_env {
  pdf_exists : bool;
  csv_exists : bool;
  open_pdf : pdf_outcome;
  read_csv : nat -> read_outcome;
  generate_content : nat -> provider_outcome;
  write_file : nat -> string -> write_outcome;
  exec_module : nat -> string -> load_outcome;
  artifact_before : option string
}.

(** The lines [main] prints; the lines its helpers print when they catch an
    error are not recorded.  Printing is taken to succeed. *)
Inductive message : Type :=
| PdfNotFound
| CsvNotFound
| Extracting
| ExtractionFailed
| AnalysisFailed
| PdfExtracted (characters : nat)
| CsvAnalyzed (shape : nat * nat) (cols : list string)
| AttemptStarts (attempt : nat)
| GenerationFailed
| SavedTo
| Testing
| Success
| ParserSaved
| AttemptFailed (attempt : nat) (reason : string)
| AllAttemptsFailed
| FailedAfter3Attempts.

(** One turn of the loop, as it happened: its number, what synthesis
    returned, what the write of the artifact did when there was code to
    write, and how the test ended when the code was written. *)
Record attempt_record : Type := mk_attempt {
  att_number : nat;
  att_code : option string;
  att_write : option write_outcome;
  att_test : option test_outcome
}.

(** The state [main] threads: what was printed (latest first), the content
    of the file at [output_path], and the turns of the loop so far (latest
    first). *)
Record state : Type := mk_state {
  printed : list message;
  artifact : option string;
  history : list attempt_record
}.

Definition print (m : message) (st : state) : state :=
  mk_state (m :: printed st) (artifact st) (history st).

(** The file after [open(output_path, 'w')] and [f.write(parser_code)]
    ended as [w] says. *)
Definition write_artifact (code : string) (w : write_outcome) (st : state) : state :=
  match w with
  | Written => mk_state (printed st) (Some code) (history st)
  | NotOpened _ => st
  | WriteRaised _ kept => mk_state (printed st) (Some kept) (history st)
  end.

(** The error a write raised. *)
Definition write_error (w : write_outcome) : option pyerror :=
  match w with
  | Written => None
  | NotOpened e | WriteRaised e _ => Some e
  end.

Definition record (a : attempt_record) (st : state) : state :=
  mk_state (printed st) (artifact st) (a :: history st).

(** How the process ends: a raise reaches the top level, [main] having no
    handler of its own, or the end of [main] is reached. *)
Inductive ending : Type :=
| Unhandled (x : raised)
| Completed.

(** [sys.exit(status)] with an integer status. *)
Definition Exit (status : Z) : ending := Unhandled (SystemExit (ExitInt status)).

Record run : Type := mk_run { ending_of : ending; final : state }.

(** How the operating system sees the process end: with an exit code, a
    number from 0 to 255, or killed by a signal. *)
Inductive termination : Type :=
| ExitCode (code : Z)
| KilledBy (signal : Z).

Definition SIGINT : Z := 2.

(** The integer fits the 64-bit [long] of the platform. *)
Definition fits_long (n : Z) : bool := ((- 2 ^ 63 <=? n) && (n <? 2 ^ 63))%Z.

(** What the interpreter (CPython 3.8 or later, on a POSIX system) does
    with a raise that reaches the top level.  The integer status of a
    [SystemExit] is converted to a [long], -1 standing for an integer that
    does not fit, and the system keeps its low eight bits; [None] gives
    0; any other status is printed and gives 1.  On [KeyboardInterrupt]
    the interpreter kills itself with [SIGINT].  Any other raise is
    printed with its traceback and gives 1. *)
Definition termination_of (x : raised) : termination :=
  match x with
  | SystemExit (ExitInt n) => ExitCode (if fits_long n then n mod 256 else 255)%Z
  | SystemExit ExitNone => ExitCode 0
  | SystemExit (ExitObject _) => ExitCode 1
  | KeyboardInterrupt => KilledBy SIGINT
  | Error _ | BaseError _ => ExitCode 1
  end.

(** How the process of a run ends. *)
Definition exit_code (r : run) : termination :=
  match ending_of r with
  | Unhandled x => termination_of x
  | Completed => ExitCode 0
  end.

(** [for attempt in range(1, 4): ... else: ...] over the attempt numbers
    still to run.  Leaving by [break] skips the [else] branch; an error
    raised by the write of the artifact, or a raise that leaves
    [test_parser], is not handled and ends the process. *)
Fixpoint attempts_loop (env : environment) (todo : list nat) (st : state) : run :=
  match todo with
  | [] => mk_run Completed (print FailedAfter3Attempts st)
  | attempt :: rest =>
      let st := print (AttemptStarts attempt) st in
      let parser_code := generate_parser_code (generate_content env attempt) in
      match parser_code with
      | Some (String _ _ as code) =>
          let w := write_file env attempt code in
          let st := write_artifact code w st in
          match write_error w with
          | Some e =>
              mk_run (Unhandled (Error e))
                     (record (mk_attempt attempt parser_code (Some w) None) st)
          | None =>
              let st := print Testing (print SavedTo st) in
              let test := test_parser (exec_module env attempt code) (read_csv env attempt) in
              let st := record (mk_attempt attempt parser_code (Some w) (Some test)) st in
              match test with
              | Uncaught x => mk_run (Unhandled x) st
              | Verdict true message =>
                  mk_run Completed (print ParserSaved (print Success st))
              | Verdict false message =>
                  let st := print (AttemptFailed attempt message) st in
                  let st := if Nat.eqb attempt 3 then print AllAttemptsFailed st else st in
                  attempts_loop env rest st
              end
          end
      | _ =>
          let st := print GenerationFailed st in
          let st := record (mk_attempt attempt parser_code None None) st in
          attempts_loop env rest st
      end
  end.

Definition initial (env : environment) : state :=
  mk_state [] (artifact_before env) [].

(** [main()] once the target is known and the directory of the parsers is
    there. *)
Definition main (env : environment) : run :=
  let st := initial env in
  if negb (pdf_exists env) then mk_run (Exit 1) (print PdfNotFound st)
  else if negb (csv_exists env) then mk_run (Exit 1) (print CsvNotFound st)
  else
    let st := print Extracting st in
    match extract_text_from_pdf (open_pdf env) with
    | None => mk_run (Exit 1) (print ExtractionFailed st)
    | Some pdf_text =>
        match analyze_csv_file (read_csv env 0) with
        | None => mk_run (Exit 1) (print AnalysisFailed st)
        | Some (csv_df, csv_info) =>
            let st := print (PdfExtracted (String.length pdf_text)) st in
            let st := print (CsvAnalyzed (schema_shape csv_info) (schema_columns csv_info)) st in
            attempts_loop env (seq 1 3) st
        end
    end.

(** The turns of the loop in the order they were made. *)
Definition attempts (r : run) : list attempt_record := rev (history (final r)).

(** The attempt numbers announced on the output, in the order printed. *)
Definition announced (m : message) : list nat :=
  match m with
  | AttemptStarts k => [k]
  | _ => []
  end.

Definition attempts_started (r : run) : list nat :=
  rev (flat_map announced (printed (final r))).

(** The last line printed. *)
Definition last_line (r : run) : option message := hd_error (printed (final r)).

(** The line reports a failure: of the third attempt, of all attempts, or
    of the run after three attempts. *)
Definition reports_failure (m : message) : bool :=
  match m with
  | AttemptFailed 3 _ | AllAttemptsFailed | FailedAfter3Attempts => true
  | _ => false
  end.

(** The turn's test returned a passing verdict. *)
Definition passed (a : attempt_record) : bool :=
  match att_test a with
  | Some (Verdict true _) => true
  | _ => false
  end.

(** The turn's test let a raise through. *)
Definition escaped (a : attempt_record) : bool :=
  match att_test a with
  | Some (Uncaught _) => true
  | _ => false
  end.

(** The turn's write of the artifact raised. *)
Definition write_failed (a : attempt_record) : bool :=
  match att_write a with
  | Some (NotOpened _) | Some (WriteRaised _ _) => true
  | _ => false
  end.

(** The raise that ended the run in this turn, if one did: the error of
    the write, or what left the test. *)
Definition raise_of (a : attempt_record) : option raised :=
  match att_write a, att_test a with
  | Some (NotOpened e), _ | Some (WriteRaised e _), _ => Some (Error e)
  | _, Some (Uncaught x) => Some x
  | _, _ => None
  end.

(** The content the loop last wrote, over the turns in the order made:
    each turn that generated code overwrites the file. *)
Definition last_written (before : option string) (turns : list attempt_record) : option string :=
  fold_left (fun file a => if truthy (att_code a) then att_code a else file) turns before.

(** What a turn leaves in the file at the artifact path, and the content
    of the file after the turns in the order made. *)
Definition left_by (a : attempt_record) (file : option string) : option string :=
  match att_write a, att_code a with
  | Some Written, Some code => Some code
  | Some (WriteRaised _ kept), _ => Some kept
  | _, _ => file
  end.

Definition file_after (before : option string) (turns : list attempt_record) : option string :=
  fold_left (fun file a => left_by a file) turns before.

(** What the turn numbered [attempt] records: the code synthesis returned
    and, when there is code, what its write did and, when it was written,
    how its test ended. *)
Definition turn (env : environment) (attempt : nat) : attempt_record :=
  let parser_code := generate_parser_code (generate_content env attempt) in
  match parser_code with
  | Some (String _ _ as code) =>
      let w := write_file env attempt code in
      mk_attempt attempt parser_code (Some w)
        match write_error w with
        | Some _ => None
        | None => Some (test_parser (exec_module env attempt code) (read_csv env attempt))
        end
  | _ => mk_attempt attempt parser_code None None
  end.

(** The turns made over the attempt numbers [todo]: each in order, up to
    and including the first that passes or ends the process. *)
Fixpoint turns (env : environment) (todo : list nat) : list attempt_record :=
  match todo with
  | [] => []
  | attempt :: rest =>
      turn env attempt
        :: if passed (turn env attempt) || escaped (turn env attempt)
              || write_failed (turn env attempt)
           then []
           else turns env rest
  end.

(** The raise of the first turn that ended the run. *)
Fixpoint first_raise (l : list attempt_record) : option raised :=
  match l with
  | [] => None
  | a :: l' =>
      match raise_of a with
      | Some x => Some x
      | None => first_raise l'
      end
  end.

(** The one-time analysis fails: a sample is absent, or the extraction of
    the text or the reading of the reference gave nothing. *)
Definition setup_fails (env : environment) : Prop :=
  pdf_exists env = false \/ csv_exists env = false
  \/ extract_text_from_pdf (open_pdf env) = None
  \/ analyze_csv_file (read_csv env 0) = None.

End Agent.

(* ================================================================== *)
(** * test_parser.py *)

Module TestParser.
Import Python Pandas Agent.

(** How [load_parser(bank_name)] ends. *)
Inductive load_result : Type :=
| Skipped
| Failed (x : raised)
| Module_ (parse : call_outcome).

(** [load_parser(bank_name)]: skip without an artifact; errors of loading
    pass through; a module without [parse] is refused by name. *)
Definition load_parser (artifact_exists : bool) (load : load_outcome) : load_result :=
  if negb artifact_exists then Skipped
  else
    match load with
    | LoadRaised x => Failed x
    | Loaded None =>
        Failed (Error (AttributeError "Generated parser does not implement parse(pdf_path)"))
    | Loaded (Some p) => Module_ p
    end.

(** The assertions of the harness. *)
Inductive assertion : Type :=
| ShapeAssertion (result expected : nat * nat)
| ColumnAssertion (result expected : list string)
| FrameAssertion
| ForeignAssertion (message : string).

Inductive test_result : Type :=
| TestSkipped
| TestError (x : raised)
| TestFailed (a : assertion)
| TestPassed.

Definition Qmax_ (a b : Q) : Q := if Qle_bool a b then b else a.

(** [math.isclose(a, b, rel_tol=1e-5, abs_tol=1e-8)], the tolerance of
    [assert_frame_equal], computed on the exact values. *)
Definition isclose (a b : Q) : bool :=
  Qle_bool (Qabs (a - b))
           (Qmax_ ((1 # 100000) * Qmax_ (Qabs a) (Qabs b)) (1 # 100000000)).

Definition number (c : cell) : option Q :=
  match c with
  | CInt z => Some (inject_Z z)
  | CFloat (FNum neg q) => Some (signed neg q)
  | _ => None
  end.

(** Two cells agree for [assert_frame_equal]: both missing in the same
    way, the same infinity, numbers within the tolerance, or the same
    text. *)
Definition cell_close (x y : cell) : bool :=
  match number x, number y with
  | Some a, Some b => isclose a b
  | _, _ =>
      match x, y with
      | CNone, CNone => true
      | CFloat FNaN, CFloat FNaN => true
      | CFloat (FInf a), CFloat (FInf b) => Bool.eqb a b
      | CStr s, CStr t => String.eqb s t
      | _, _ => false
      end
  end.

(** The element type is numeric and not a float type. *)
Definition exact_dtype (d : dtype) : bool :=
  match d with
  | int64 | bool_ => true
  | _ => false
  end.

(** The comparison of two columns by [assert_frame_equal] with its default
    tolerances (pandas 2.2 and later): exact when one of the two has a
    numeric element type that is not a float type, within the tolerance
    otherwise. *)
Definition columns_close (s t : Series) : bool :=
  if exact_dtype (s_dtype s) || exact_dtype (s_dtype t)
  then list_eqb cell_equivalent (s_values s) (s_values t)
  else list_eqb cell_close (s_values s) (s_values t).

(** [assert_frame_equal(result_df, expected_df, check_dtype=False)] on
    tables of equal shape and labels: column by position, the values are
    compared and the declared element types are not. *)
Definition frames_close (a b : DataFrame) : bool :=
  list_eqb columns_close (map snd (columns a)) (map snd (columns b)).

(** [test_parser(bank_name)] of the harness: [reset_index] is called on
    what [parse] returned before the reference is read. *)
Definition test_parser (artifact_exists : bool) (load : load_outcome) (csv : read_outcome)
  : test_result :=
  match load_parser artifact_exists load with
  | Skipped => TestSkipped
  | Failed x => TestError x
  | Module_ (Raised x) => TestError x
  | Module_ (Returned (NoResetIndex ty)) =>
      TestError (Error (AttributeError ("'" ++ ty ++ "' object has no attribute 'reset_index'")))
  | Module_ (Returned (Foreign (ResetRaises x))) => TestError x
  | Module_ (Returned (Foreign (ResetReturns _ asserted))) =>
      match csv with
      | ReadRaised e => TestError (Error e)
      | ReadOk _ =>
          match asserted with
          | AssertionsRaise x => TestError x
          | AssertionsPass => TestPassed
          | AssertionFails message => TestFailed (ForeignAssertion message)
          end
      end
  | Module_ (Returned (Frame r)) =>
      match csv with
      | ReadRaised e => TestError (Error e)
      | ReadOk e =>
          let result_df := reset_index r in
          let expected_df := reset_index e in
          if negb (Nat.eqb (fst (shape result_df)) (fst (shape expected_df))
                   && Nat.eqb (snd (shape result_df)) (snd (shape expected_df)))
          then TestFailed (ShapeAssertion (shape result_df) (shape expected_df))
          else if negb (list_eqb String.eqb (column_names result_df) (column_names expected_df))
          then TestFailed (ColumnAssertion (column_names result_df) (column_names expected_df))
          else if frames_close result_df expected_df then TestPassed
          else TestFailed FrameAssertion
      end
  end.

End TestParser.

(* ================================================================== *)
(** * custom_parsers/icici_parser.py *)

Module IciciParser.
Import Python.

(** [np.nan]. *)
Definition nan : pyfloat := FNaN.

(** The helper [clean_and_convert_num(val_str)] of [parse]; a cell of an
    extracted table is a string or [None]. *)
Definition clean_and_convert_num (val_str : option string) : pyfloat :=
  match val_str with
  | None => nan
  | Some v =>
      if String.eqb (strip v) EmptyString then nan
      else
        let clean_val := strip (remove_char "," v) in
        match float clean_val with
        | Some x => x
        | None => nan
        end
  end.

(** ** Amounts as written

    What a string of digits, commas and a decimal point denotes, stated
    apart from the conversion above. *)

Definition amount_char (c : ascii) : bool :=
  is_digit c || Ascii.eqb c "," || Ascii.eqb c ".".

(** The characters left once the commas are gone. *)
Definition plain_char (c : ascii) : bool := is_digit c || Ascii.eqb c ".".

Fixpoint all_chars (p : ascii -> bool) (s : string) : bool :=
  match s with
  | EmptyString => true
  | String c s' => p c && all_chars p s'
  end.

Fixpoint count_chars (p : ascii -> bool) (s : string) : nat :=
  match s with
  | EmptyString => 0
  | String c s' => (if p c then 1 else 0) + count_chars p s'
  end.

(** A string of digits, commas and at most one decimal point, with at
    least one digit. *)
Definition is_amount (s : string) : bool :=
  all_chars amount_char s
  && Nat.leb 1 (count_chars is_digit s)
  && Nat.leb (count_chars (Ascii.eqb ".") s) 1.

(** The integer spelled by the digits of [s] read from the left, after the
    digits already read as [acc]; other characters are passed over. *)
Fixpoint digits_number (acc : Z) (s : string) : Z :=
  match s with
  | EmptyString => acc
  | String c s' =>
      if is_digit c then digits_number (10 * acc + digit_value c)%Z s'
      else digits_number acc s'
  end.

(** How many digits stand after the decimal point (none without one). *)
Fixpoint digits_after_point (s : string) : nat :=
  match s with
  | EmptyString => 0
  | String c s' =>
      if Ascii.eqb c "." then count_chars is_digit s' else digits_after_point s'
  end.

(** The number an amount denotes: its digits as an integer, divided by ten
    to the number of digits after the point. *)
Definition amount_value (s : string) : Q :=
  digits_number 0 s # Z.to_pos (10 ^ Z.of_nat (digits_after_point s)).

End IciciParser.

(* ================================================================== *)
(** * custom_parsers/icici_parser.py: the rows of the extracted tables *)

Module IciciRows.
Import Python IciciParser.

(** A cell of an extracted table is a string or [None]; a row is a list of
    cells.  [all_extracted_rows] is the rows of every table of every page,
    in order. *)
Definition row : Type := list (option string).

Definition all_extracted_rows (pages : list (list (list row))) : list row :=
  concat (concat pages).

(** [cell.strip() if cell else ''], also used for the date and the
    description of a data row. *)
Definition cleaned (cell : option string) : string :=
  match cell with
  | Some (String _ _ as s) => strip s
  | _ => EmptyString
  end.

(** [l.index(x)], [None] when [x] is not in [l]. *)
Fixpoint index_of (x : string) (l : list string) : option nat :=
  match l with
  | [] => None
  | y :: l' => if String.eqb y x then Some 0 else option_map S (index_of x l')
  end.

(** The dictionary [header_indices]; [None] stands for the index -1 of an
    optional header that was not found. *)
Record header : Type := mk_header {
  date_idx : nat;
  desc_idx : nat;
  debit_idx : option nat;
  credit_idx : option nat;
  balance_idx : nat
}.

(** The test made on one row by the search for the header: it must hold
    Date, Description and Balance, in this order from the left. *)
Definition header_of (r : row) : option header :=
  let cleaned_row := map cleaned r in
  match index_of "Date" cleaned_row,
        index_of "Description" cleaned_row,
        index_of "Balance" cleaned_row with
  | Some d, Some s, Some b =>
      if Nat.ltb d s && Nat.ltb s b then
        Some (mk_header d s (index_of "Debit Amt" cleaned_row)
                        (index_of "Credit Amt" cleaned_row) b)
      else None
  | _, _, _ => None
  end.

(** The search [for i, row in enumerate(all_extracted_rows)], from row
    number [i] on: the first row that is a header, with its number. *)
Fixpoint find_header (i : nat) (rows : list row) : option (nat * header) :=
  match rows with
  | [] => None
  | r :: rest =>
      match header_of r with
      | Some h => Some (i, h)
      | None => find_header (S i) rest
      end
  end.

Definition max_opt (a : nat) (b : option nat) : nat :=
  match b with
  | Some n => Nat.max a n
  | None => a
  end.

(** [max(idx for idx in header_indices.values() if idx != -1)]. *)
Definition max_valid_idx (h : header) : nat :=
  max_opt (max_opt (Nat.max (Nat.max (date_idx h) (desc_idx h)) (balance_idx h))
                   (debit_idx h))
          (credit_idx h).

(** One element of [transactions_data]. *)
Record transaction : Type := mk_transaction {
  t_date : string;
  t_desc : string;
  t_debit : pyfloat;
  t_credit : pyfloat;
  t_balance : pyfloat
}.

(** The string of an optional amount column: [None] when the header was
    not found or the row is too short. *)
Definition amount_str (idx : option nat) (r : row) : option string :=
  match idx with
  | Some i => if Nat.ltb i (length r) then nth i r None else None
  | None => None
  end.

Definition notna (f : pyfloat) : bool :=
  match f with
  | FNaN => false
  | _ => true
  end.

(** The body of [for row in data_rows]: the transaction the row adds, or
    [None] when the row is passed over (too short, an index out of range,
    no date, or a balance that is not a number). *)
Definition transaction_of (h : header) (r : row) : option transaction :=
  if Nat.leb (length r) (max_valid_idx h) then None
  else
    match nth_error r (date_idx h), nth_error r (desc_idx h),
          nth_error r (balance_idx h) with
    | Some date_str, Some description, Some balance_str =>
        let debit_amt_str := amount_str (debit_idx h) r in
        let credit_amt_str := amount_str (credit_idx h) r in
        let date := cleaned date_str in
        let desc := cleaned description in
        let debit_amt := clean_and_convert_num debit_amt_str in
        let credit_amt := clean_and_convert_num credit_amt_str in
        let balance := clean_and_convert_num balance_str in
        match date with
        | String _ _ =>
            if notna balance
            then Some (mk_transaction date desc debit_amt credit_amt balance)
            else None
        | EmptyString => None
        end
    | _, _, _ => None
    end.

Fixpoint collect (h : header) (data_rows : list row) : list transaction :=
  match data_rows with
  | [] => []
  | r :: rest =>
      match transaction_of h r with
      | Some t => t :: collect h rest
      | None => collect h rest
      end
  end.

(** The list [transactions_data] that [parse] builds from the extracted
    rows, before it is turned into a table: empty without a header,
    otherwise what the rows after the header give. *)
Definition transactions_data (rows : list row) : list transaction :=
  match find_header 0 rows with
  | None => []
  | Some (header_row_idx, h) => collect h (skipn (S header_row_idx) rows)
  end.

End IciciRows.

(* ================================================================== *)
(** * What the statements below speak of *)

Module Observations.
Import Python Pandas Agent.

(** The text holds a fence marker somewhere. *)
Fixpoint has_fence (s : string) : bool :=
  match s with
  | EmptyString => false
  | String _ s' => String.prefix fence s || has_fence s'
  end.

(** One backtick, and two. *)
Definition tick : string := "`".
Definition ticks : string := "``".

(** What one page adds to the text. *)
Definition page_text (p : page_outcome) : string :=
  match p with
  | PageText (Some (String _ _ as t)) => t ++ String (ascii_of_nat 10) EmptyString
  | _ => EmptyString
  end.

Definition page_raises (p : page_outcome) : bool :=
  match p with
  | PageRaised _ => true
  | PageText _ => false
  end.

(** What the result of [parse] must have been for the comparison to
    succeed against the reference: a table equal to it, or an object of
    another type whose own [equals] answered true. *)
Definition accepted (v : pyobject) (reference : DataFrame) : Prop :=
  match v with
  | Frame result =>
      shape result = shape reference
      /\ column_names result = column_names reference
      /\ Forall2 (fun s t => array_equals s t = true)
                 (map snd (columns result)) (map snd (columns reference))
  | NoResetIndex _ => False
  | Foreign reset => exists asserted, reset = ResetReturns ComparesEqual asserted
  end.


End Observations.

(* ================================================================== *)
(** * What the statements on the extracted rows speak of *)

Module RowObservations.
Import Python IciciParser IciciRows.

(** The cell of a row at a position, [None] beyond its end. *)
Definition cell_at (i : nat) (r : row) : option string := nth i r None.

(** The row is long enough for the header, has a date and a balance that
    is a number. *)
Definition usable (h : header) (r : row) : bool :=
  Nat.ltb (max_valid_idx h) (length r)
  && negb (String.eqb (cleaned (cell_at (date_idx h) r)) EmptyString)
  && notna (clean_and_convert_num (cell_at (balance_idx h) r)).

(** The transaction read off a row. *)
Definition read_off (h : header) (r : row) : transaction :=
  mk_transaction
    (cleaned (cell_at (date_idx h) r))
    (cleaned (cell_at (desc_idx h) r))
    (clean_and_convert_num (amount_str (debit_idx h) r))
    (clean_and_convert_num (amount_str (credit_idx h) r))
    (clean_and_convert_num (cell_at (balance_idx h) r)).

(** The character is not a comma. *)
Definition no_comma (c : ascii) : bool := negb (Ascii.eqb c ",").

(** The usual header, and the tables of a statement of two pages, the
    second page repeating the header. *)
Definition usual_header : row :=
  [Some "Date"; Some "Description"; Some "Debit Amt"; Some "Credit Amt"; Some "Balance"].

Definition statement_pages : list (list (list row)) :=
  [ [ [ [Some "ICICI Bank"; None] ];
      [ usual_header;
        [Some "01-08-2024"; Some " Salary "; None; Some "1,000.00"; Some "1,000.00"];
        [Some ""; Some "carried over"; None; None; Some "1,000.00"] ] ];
    [ [ [Some " Date"; Some "Description"; Some "Debit Amt"; Some "Credit Amt";
         Some "Balance "];
        [Some "02-08-2024"; Some "Rent"; Some "750.50"; Some ""; Some "249.50"];
        [Some "Total"; None; None; None; Some "n/a"];
        [Some "03-08-2024"; Some "short row"] ] ] ].

Definition statement : list row := all_extracted_rows statement_pages.

(** The header found in [statement], and the two transactions in it. *)
Definition statement_header : header := mk_header 0 1 (Some 2) (Some 3) 4.

Definition salary : transaction :=
  mk_transaction "01-08-2024" "Salary" FNaN
                 (binary64 false (1000 # 1)) (binary64 false (1000 # 1)).

Definition rent : transaction :=
  mk_transaction "02-08-2024" "Rent" (binary64 false (1501 # 2)) FNaN
                 (binary64 false (499 # 2)).

End RowObservations.

(* ================================================================== *)
(** * Sample inputs *)

Module Samples.
Import Python Pandas Agent.

(** A table of the given extents. *)
Definition frame_of_shape (rows cols : nat) : DataFrame :=
  mk_frame (map (fun k => (str_nat k, mk_series object (repeat CNone rows))) (seq 0 cols))
           (RangeIndex rows).

Definition dates : Series := mk_series object [CStr "01-08-2024"; CStr "02-08-2024"].
Definition descriptions : Series := mk_series object [CStr "Salary"; CStr "Rent"].
Definition balances : Series :=
  mk_series float64 [CFloat (FNum false (1000 # 1)); CFloat (FNum false (501 # 2))].

(** Whole amounts, as the reader of the reference types them, and the same
    amounts as floats, as the example parser produces them. *)
Definition whole_balances : Series := mk_series int64 [CInt 1000; CInt 250].
Definition float_balances : Series :=
  mk_series float64 [CFloat (FNum false (1000 # 1)); CFloat (FNum false (250 # 1))].

Definition typed_result : DataFrame :=
  mk_frame [("Date", dates); ("Balance", float_balances)] [0%Z; 1%Z].
Definition typed_reference : DataFrame :=
  mk_frame [("Date", dates); ("Balance", whole_balances)] [0%Z; 1%Z].

(** Reference columns Date, Description, Balance; result columns Date,
    Balance. *)
Definition three_columns : DataFrame :=
  mk_frame [("Date", dates); ("Description", descriptions); ("Balance", balances)] [0%Z; 1%Z].
Definition two_columns : DataFrame :=
  mk_frame [("Date", dates); ("Balance", balances)] [0%Z; 1%Z].
(** The same extents as the reference, with Memo in place of Description. *)
Definition renamed_column : DataFrame :=
  mk_frame [("Date", dates); ("Memo", descriptions); ("Balance", balances)] [0%Z; 1%Z].

(** The same two columns in the two orders. *)
Definition date_first : DataFrame :=
  mk_frame [("Date", dates); ("Balance", balances)] [0%Z; 1%Z].
Definition balance_first : DataFrame :=
  mk_frame [("Balance", balances); ("Date", dates)] [0%Z; 1%Z].

(** Two generated sources: the first returns the reference's table, the
    second a table without the Description column. *)
Definition good_source : string := "def parse(pdf_path): return full_table(pdf_path)".
Definition poor_source : string := "def parse(pdf_path): return short_table(pdf_path)".
Definition other_source : string := "def parse(pdf_path): return short_table(open(pdf_path))".

(** A generated source whose entry point ends the process. *)
Definition exiting_source : string :=
  "import sys
def parse(pdf_path): sys.exit(2)".

Definition exec_sample (attempt : nat) (src : string) : load_outcome :=
  if String.eqb src good_source then Loaded (Some (Returned (Frame three_columns)))
  else if String.eqb src exiting_source then Loaded (Some (Raised (SystemExit (ExitInt 2))))
  else Loaded (Some (Returned (Frame two_columns))).

Definition sample_pdf : pdf_outcome :=
  Opened [PageText (Some "Date Description Balance"); PageText None].

(** The surroundings of a run whose provider answers as [answers] says. *)
Definition surroundings (answers : nat -> provider_outcome) : environment :=
  mk_env true true sample_pdf (fun _ => ReadOk three_columns) answers
         (fun _ _ => Written) exec_sample None.

Definition unavailable : pyerror := mk_error "ResourceExhausted" "quota exceeded".

(** The second attempt passes. *)
Definition passes_second : environment :=
  surroundings (fun k => if Nat.eqb k 1 then ProviderText poor_source
                         else ProviderText good_source).

(** No attempt passes. *)
Definition never_passes : environment :=
  surroundings (fun k => if Nat.eqb k 2 then ProviderText other_source
                         else ProviderText poor_source).

(** The first two attempts give failing code, the third gives none. *)
Definition third_gives_no_code : environment :=
  surroundings (fun k => if Nat.eqb k 1 then ProviderText poor_source
                         else if Nat.eqb k 2 then ProviderText other_source
                         else ProviderRaised unavailable).

(** The first attempt's code calls [sys.exit(2)] when run. *)
Definition exits_during_test : environment :=
  surroundings (fun _ => ProviderText exiting_source).

(** The first two attempts give failing code; the code of the third calls
    [sys.exit(2)] when run. *)
Definition third_exits : environment :=
  surroundings (fun k => if Nat.eqb k 1 then ProviderText poor_source
                         else if Nat.eqb k 2 then ProviderText other_source
                         else ProviderText exiting_source).

(** The code of the second attempt cannot be encoded: the file is opened,
    and the write raises. *)
Definition cannot_encode : pyerror :=
  mk_error "UnicodeEncodeError"
           "'ascii' codec can't encode character '\u20b9' in position 40: ordinal not in range(128)".

Definition second_write_fails : environment :=
  mk_env true true sample_pdf (fun _ => ReadOk three_columns)
         (fun k => if Nat.eqb k 1 then ProviderText poor_source
                   else ProviderText other_source)
         (fun k _ => if Nat.eqb k 2 then WriteRaised cannot_encode EmptyString else Written)
         exec_sample None.

(** What a generated [parse] returns when it returns an object of a class
    of its own whose [reset_index] returns the object and whose [equals]
    answers true; its [shape] is not that of a table. *)
Definition self_approving : pyobject :=
  Foreign (ResetReturns ComparesEqual
             (AssertionFails "Shape mismatch: None vs (2, 3)")).

(** A column on its own, as [parse] returns it when it forgets the
    others. *)
Definition lone_series : pyobject :=
  Foreign (ResetReturns
             (ComparesDifferent "Shape mismatch: Result (2,) vs Expected (2, 3)")
             (AssertionFails "Shape mismatch: (2,) vs (2, 3)")).

(** The sample PDF is absent. *)
Definition pdf_missing : environment :=
  mk_env false true sample_pdf (fun _ => ReadOk three_columns)
         (fun _ => ProviderText good_source) (fun _ _ => Written) exec_sample None.

End Samples.

(* ================================================================== *)
(** * The model at work *)

Section Checks.
Import Python Pandas Agent IciciParser Samples.

Example repr_pair_3_5 : repr_pair (3, 5) = "(3, 5)".
Proof. reflexivity. Qed.

Example strip_blanks : strip "  1,000.00 " = "1,000.00".
Proof. reflexivity. Qed.

Example float_thousand : float "1000.00" = Some (FNum false (1000 # 1)).
Proof. vm_compute. reflexivity. Qed.

(** The nearest binary64 to one tenth. *)
Example float_tenth :
  float "0.1" = Some (FNum false (3602879701896397 # 36028797018963968)).
Proof. vm_compute. reflexivity. Qed.

Example float_ties_to_even :
  float "9007199254740993" = Some (FNum false (9007199254740992 # 1)).
Proof. vm_compute. reflexivity. Qed.

Example float_overflow : float "1e400" = Some (FInf false).
Proof. vm_compute. reflexivity. Qed.

Example float_rejects_two_points : float "1.2.3" = None.
Proof. vm_compute. reflexivity. Qed.

Example float_grouped_digits : float " 1_0e2 " = Some (FNum false (1000 # 1)).
Proof. vm_compute. reflexivity. Qed.

(** Without a digit there is no number: the helper gives NaN. *)
Example clean_lone_point : clean_and_convert_num (Some ".") = FNaN.
Proof. vm_compute. reflexivity. Qed.

Example clean_lone_comma : clean_and_convert_num (Some ",") = FNaN.
Proof. vm_compute. reflexivity. Qed.

Example fences_removed :
  generate_parser_code
    (ProviderText "```python
def parse(pdf_path): pass
```
")
  = Some "def parse(pdf_path): pass".
Proof. vm_compute. reflexivity. Qed.

(** An answer made of fence markers only leaves no code. *)
Example fences_only :
  truthy (generate_parser_code (ProviderText "```python```")) = false.
Proof. reflexivity. Qed.

Example verify_same_table :
  verify three_columns three_columns = Verdict true "Parser test passed!".
Proof. vm_compute. reflexivity. Qed.

(** Differing in the second row of Balance only. *)
Example verify_names_the_column :
  verify (mk_frame [("Date", dates); ("Balance", float_balances)] [0%Z; 1%Z])
         (mk_frame [("Date", dates); ("Balance", balances)] [0%Z; 1%Z])
  = Verdict false "Parser test failed. Column Balance doesn't match".
Proof. vm_compute. reflexivity. Qed.

(** An object that is no table: a lone column is compared and found of
    another shape; an object whose own [equals] answers true passes the
    agent's test, and fails the first assertion of the harness. *)
Example series_is_compared :
  test_parser (Loaded (Some (Returned lone_series))) (ReadOk three_columns)
  = Verdict false "Parser test failed. Shape mismatch: Result (2,) vs Expected (2, 3)".
Proof. reflexivity. Qed.

Example self_approving_passes :
  test_parser (Loaded (Some (Returned self_approving))) (ReadOk three_columns)
  = Verdict true "Parser test passed!"
  /\ TestParser.test_parser true (Loaded (Some (Returned self_approving)))
                            (ReadOk three_columns)
     = TestParser.TestFailed (TestParser.ForeignAssertion "Shape mismatch: None vs (2, 3)").
Proof. split; reflexivity. Qed.

(** A value without [reset_index], and an interrupt raised by [parse]. *)
Example none_is_an_error :
  test_parser (Loaded (Some (Returned (NoResetIndex "NoneType")))) (ReadOk three_columns)
  = Verdict false "Error testing parser: 'NoneType' object has no attribute 'reset_index'".
Proof. reflexivity. Qed.

Example interrupt_is_not_caught :
  test_parser (Loaded (Some (Raised KeyboardInterrupt))) (ReadOk three_columns)
  = Uncaught KeyboardInterrupt.
Proof. reflexivity. Qed.

(** How the process ends on a raise that reaches the top level. *)
Example exit_low_eight_bits :
  termination_of (SystemExit (ExitInt 2)) = ExitCode 2
  /\ termination_of (SystemExit (ExitInt 256)) = ExitCode 0
  /\ termination_of (SystemExit (ExitInt 257)) = ExitCode 1
  /\ termination_of (SystemExit (ExitInt (-1))) = ExitCode 255
  /\ termination_of (SystemExit (ExitInt (2 ^ 63 - 1))) = ExitCode 255
  /\ termination_of (SystemExit (ExitInt (2 ^ 63))) = ExitCode 255
  /\ termination_of (SystemExit (ExitInt (- 2 ^ 63))) = ExitCode 0
  /\ termination_of (SystemExit (ExitInt (2 ^ 64 + 5))) = ExitCode 255.
Proof. repeat split; vm_compute; reflexivity. Qed.

Example exit_other_statuses :
  termination_of (SystemExit ExitNone) = ExitCode 0
  /\ termination_of (SystemExit (ExitObject "bye")) = ExitCode 1
  /\ termination_of KeyboardInterrupt = KilledBy 2
  /\ termination_of (BaseError (mk_error "GeneratorExit" EmptyString)) = ExitCode 1
  /\ termination_of (Error (mk_error "ValueError" "x")) = ExitCode 1.
Proof. repeat split; reflexivity. Qed.

Example run_passes_second :
  map att_number (attempts (main passes_second)) = [1; 2]
  /\ artifact (final (main passes_second)) = Some good_source
  /\ exit_code (main passes_second) = ExitCode 0.
Proof. repeat split; reflexivity. Qed.

(** The write of the second attempt's code raises: the file is left
    empty, no test is made, and the process ends by the error. *)
Example run_second_write_fails :
  map att_number (attempts (main second_write_fails)) = [1; 2]
  /\ map att_test (attempts (main second_write_fails))
     = [Some (Verdict false "Parser test failed. Shape mismatch: Result (2, 2) vs Expected (2, 3)");
        None]
  /\ artifact (final (main second_write_fails)) = Some EmptyString
  /\ last_line (main second_write_fails) = Some (AttemptStarts 2)
  /\ ending_of (main second_write_fails) = Unhandled (Error cannot_encode)
  /\ exit_code (main second_write_fails) = ExitCode 1.
Proof. repeat split; reflexivity. Qed.

End Checks.

(* ================================================================== *)
(** * Facts about the library model *)

Section LibraryFacts.
Import Python Pandas.

Lemma list_eqb_length {A : Type} (eqb : A -> A -> bool) (l1 l2 : list A) :
  list_eqb eqb l1 l2 = true -> length l1 = length l2.
Proof.
  revert l2; induction l1 as [|x l1 IH]; intros [|y l2]; simpl; try discriminate; auto.
  intros H; apply andb_prop in H as [_ H]; f_equal; auto.
Qed.

Lemma list_eqb_refl {A : Type} (eqb : A -> A -> bool) (l : list A) :
  (forall x, In x l -> eqb x x = true) -> list_eqb eqb l l = true.
Proof.
  induction l as [|x l IH]; simpl; intros H; [reflexivity|].
  rewrite (H x (or_introl eq_refl)), IH; auto.
Qed.

Lemma list_eqb_string (l1 l2 : list string) :
  list_eqb String.eqb l1 l2 = true <-> l1 = l2.
Proof.
  revert l2; induction l1 as [|x l1 IH]; intros [|y l2]; simpl; split;
    try discriminate; try reflexivity.
  - intros H; apply andb_prop in H as [Hx Hl].
    apply String.eqb_eq in Hx; apply IH in Hl; congruence.
  - intros H; injection H as -> ->.
    rewrite String.eqb_refl; apply IH; reflexivity.
Qed.

Lemma RangeIndex_length (n : nat) : length (RangeIndex n) = n.
Proof. unfold RangeIndex; rewrite length_map, length_seq; reflexivity. Qed.

Lemma shape_reset_index (df : DataFrame) : shape (reset_index df) = shape df.
Proof. unfold shape, reset_index; simpl; rewrite RangeIndex_length; reflexivity. Qed.

Lemma DataFrame_equals_shape (a b : DataFrame) :
  DataFrame_equals a b = true -> shape a = shape b.
Proof.
  unfold DataFrame_equals, Index_equals, shape, column_names.
  intros H; apply andb_prop in H as [H _]; apply andb_prop in H as [Hc Hi].
  apply list_eqb_length in Hc, Hi. rewrite !length_map in Hc. congruence.
Qed.

Lemma float_eq_refl (f : pyfloat) : f <> FNaN -> float_eq f f = true.
Proof.
  destruct f as [|b|b q]; simpl; intros H.
  - congruence.
  - apply Bool.eqb_reflx.
  - apply Qeq_bool_iff; reflexivity.
Qed.

Lemma cell_equivalent_refl (c : cell) : cell_equivalent c c = true.
Proof.
  unfold cell_equivalent.
  destruct c as [|f|z|s]; simpl; auto.
  - destruct f as [|b|b q]; simpl; auto.
    + apply Bool.eqb_reflx.
    + apply Qeq_bool_iff; reflexivity.
  - apply Z.eqb_refl.
  - apply String.eqb_refl.
Qed.

Lemma array_equals_refl (s : Series) : array_equals s s = true.
Proof.
  unfold array_equals. apply andb_true_intro; split.
  - destruct (s_dtype s); reflexivity.
  - apply list_eqb_refl; intros; apply cell_equivalent_refl.
Qed.

Lemma Index_equals_Z_refl (i : list Z) : Index_equals Z.eqb i i = true.
Proof. apply list_eqb_refl; intros; apply Z.eqb_refl. Qed.

End LibraryFacts.

(* ================================================================== *)
(** * The verification step *)

Section Verification.
Import Python Pandas Agent Samples.

Lemma verify_unfold (result reference : DataFrame) :
  verify result reference
  = handled (compare_frames (reset_index result) (reset_index reference)).
Proof. reflexivity. Qed.

Lemma shape_eqb_false (a b : nat * nat) :
  a <> b -> Nat.eqb (fst a) (fst b) && Nat.eqb (snd a) (snd b) = false.
Proof.
  destruct a as [r c], b as [r' c']; simpl; intros H.
  destruct (Nat.eqb_spec r r'), (Nat.eqb_spec c c'); simpl; congruence.
Qed.

(** Tables of different extents: the comparison stops at the shapes. *)
Lemma compare_frames_shape (result expected : DataFrame) :
  shape result <> shape expected ->
  compare_frames result expected =
    Returns (false, "Parser test failed. "
                      ++ diff_text (ShapeMismatch (shape result) (shape expected))).
Proof.
  intros H. unfold compare_frames.
  destruct (DataFrame_equals result expected) eqn:E.
  - apply DataFrame_equals_shape in E; contradiction.
  - unfold find_difference. rewrite (shape_eqb_false _ _ H). reflexivity.
Qed.

Lemma verify_shape (result reference : DataFrame) :
  shape result <> shape reference ->
  verify result reference =
    Verdict false ("Parser test failed. "
                     ++ diff_text (ShapeMismatch (shape result) (shape reference))).
Proof.
  intros H. rewrite verify_unfold, compare_frames_shape; rewrite !shape_reset_index; auto.
Qed.

(** C1. When the result and the reference differ in their numbers of rows
    or of columns, [verify] fails and its reason is the shape mismatch,
    carrying both shapes as printed pairs; the reason is then neither a
    missing-column nor a column-mismatch text, for any column. *)
Theorem C1_shape_mismatch_first (result reference : DataFrame) :
  shape result <> shape reference ->
  verify result reference =
    Verdict false
      ("Parser test failed. Shape mismatch: Result " ++ repr_pair (shape result)
         ++ " vs Expected " ++ repr_pair (shape reference))
  /\ (forall col,
        verify result reference
        <> Verdict false ("Parser test failed. " ++ diff_text (MissingColumn col)))
  /\ (forall col,
        verify result reference
        <> Verdict false ("Parser test failed. " ++ diff_text (ColumnMismatch col))).
Proof.
  intros H. rewrite (verify_shape _ _ H). repeat split.
  - intros col; simpl; intros E; discriminate E.
  - intros col; simpl; intros E; discriminate E.
Qed.

(** A result of 3 rows and 5 columns against a reference of 5 rows and 5
    columns: the reason carries (3, 5) and (5, 5). *)
Lemma C1_witness :
  shape (frame_of_shape 3 5) <> shape (frame_of_shape 5 5)
  /\ verify (frame_of_shape 3 5) (frame_of_shape 5 5) =
       Verdict false "Parser test failed. Shape mismatch: Result (3, 5) vs Expected (5, 5)".
Proof.
  assert (H : shape (frame_of_shape 3 5) <> shape (frame_of_shape 5 5))
    by (vm_compute; discriminate).
  split; [exact H|].
  exact (proj1 (C1_shape_mismatch_first _ _ H)).
Defined.

(** ** Columns *)

Lemma column_names_reset_index (df : DataFrame) :
  column_names (reset_index df) = column_names df.
Proof. reflexivity. Qed.

Lemma DataFrame_equals_names (a b : DataFrame) :
  DataFrame_equals a b = true -> column_names a = column_names b.
Proof.
  unfold DataFrame_equals, Index_equals. intros H.
  apply andb_prop in H as [H _]; apply andb_prop in H as [H _].
  apply list_eqb_string; exact H.
Qed.

Lemma contains_In (df : DataFrame) (col : string) :
  contains df col = true <-> In col (column_names df).
Proof.
  unfold contains. rewrite existsb_exists. split.
  - intros (x & Hx & E). apply String.eqb_eq in E. subst; exact Hx.
  - intros H. exists col. split; [exact H | apply String.eqb_refl].
Qed.

Lemma getitem_contains (df : DataFrame) (col : string) (x : item) :
  getitem df col = Some x -> contains df col = true.
Proof.
  unfold getitem. intros H. apply contains_In. unfold column_names.
  destruct (filter _ (columns df)) as [|c cs] eqn:F; [discriminate|].
  assert (Hin : In c (filter (fun c => String.eqb (fst c) col) (columns df)))
    by (rewrite F; left; reflexivity).
  apply filter_In in Hin as [Hin E]. apply String.eqb_eq in E. subst col.
  apply in_map; exact Hin.
Qed.

Lemma filter_none {A : Type} (f : A -> bool) (l : list A) :
  (forall x, In x l -> f x = false) -> filter f l = [].
Proof.
  induction l as [|x l IH]; simpl; intros H; [reflexivity|].
  rewrite (H x (or_introl eq_refl)). apply IH. intros y Hy. apply H. right; exact Hy.
Qed.

(** A label that names one column selects exactly that column. *)
Lemma filter_unique (l : list (string * Series)) (col : string) (s : Series) :
  NoDup (map fst l) -> In (col, s) l ->
  filter (fun c => String.eqb (fst c) col) l = [(col, s)].
Proof.
  induction l as [|[c t] l IH]; simpl; intros Hnd Hin; [contradiction|].
  inversion Hnd as [|? ? Hnotin Hnd']; subst.
  destruct Hin as [E | Hin].
  - injection E as -> ->. rewrite String.eqb_refl. f_equal.
    apply filter_none. intros [c' t'] Hin'. simpl.
    destruct (String.eqb_spec c' col) as [->|]; [|reflexivity].
    exfalso; apply Hnotin. change col with (fst (col, t')). apply in_map; exact Hin'.
  - destruct (String.eqb_spec c col) as [->|].
    + exfalso; apply Hnotin. change col with (fst (col, s)). apply in_map; exact Hin.
    + apply IH; assumption.
Qed.

Lemma getitem_unique (df : DataFrame) (col : string) (s : Series) :
  NoDup (column_names df) -> In (col, s) (columns df) ->
  getitem df col = Some (ItemSeries (index df) s).
Proof.
  intros Hnd Hin. unfold getitem. rewrite (filter_unique _ _ _ Hnd Hin). reflexivity.
Qed.

(** The loop of [test_parser] finds nothing when every expected label
    names, in both tables, one and the same column. *)
Lemma check_columns_agree (result expected : DataFrame) (cols : list string) :
  (forall col, In col cols -> column_agrees result expected col = true) ->
  check_columns result expected cols = Returns NoDifference.
Proof.
  induction cols as [|col rest IH]; simpl; intros H; [reflexivity|].
  pose proof (H col (or_introl eq_refl)) as Hc. unfold column_agrees in Hc.
  destruct (getitem result col) as [r|] eqn:Gr; [|discriminate].
  destruct (getitem expected col) as [e|] eqn:Ge; [|discriminate].
  rewrite (getitem_contains _ _ _ Gr), Hc. simpl.
  apply IH. intros c Hin. apply H. right; exact Hin.
Qed.

(** C5 (amended). Against a reference with the columns Date, Description,
    Balance: a result with the columns Date, Balance fails on the shape
    mismatch, two columns against three, and the reason does not name
    Description; the missing-column reason naming Description is given to
    a result of the reference's shape without a column Description whose
    Date column agrees with the reference's. *)
Theorem C5_missing_column_after_shape (result reference : DataFrame) :
  column_names reference = ["Date"; "Description"; "Balance"] ->
  (column_names result = ["Date"; "Balance"] ->
   verify result reference =
     Verdict false
       ("Parser test failed. Shape mismatch: Result "
          ++ repr_pair (length (index result), 2)
          ++ " vs Expected " ++ repr_pair (length (index reference), 3)))
  /\ (shape result = shape reference ->
      contains result "Description" = false ->
      column_agrees (reset_index result) (reset_index reference) "Date" = true ->
      verify result reference = Verdict false "Parser test failed. Missing column: Description").
Proof.
  intros Href. split.
  - intros Hres.
    assert (Hr : shape result = (length (index result), 2)).
    { unfold shape. f_equal. apply (f_equal (@length string)) in Hres.
      unfold column_names in Hres. rewrite length_map in Hres. exact Hres. }
    assert (He : shape reference = (length (index reference), 3)).
    { unfold shape. f_equal. apply (f_equal (@length string)) in Href.
      unfold column_names in Href. rewrite length_map in Href. exact Href. }
    rewrite verify_shape; rewrite Hr, He; [reflexivity | intros E; discriminate E].
  - intros Hshape Hno Hdate. rewrite verify_unfold. unfold compare_frames.
    destruct (DataFrame_equals (reset_index result) (reset_index reference)) eqn:E.
    + apply DataFrame_equals_names in E. rewrite !column_names_reset_index in E.
      assert (Hin : contains result "Description" = true).
      { apply contains_In. rewrite E, Href. simpl; auto. }
      congruence.
    + unfold find_difference. rewrite !shape_reset_index, Hshape, !Nat.eqb_refl. simpl.
      rewrite column_names_reset_index, Href. simpl.
      unfold column_agrees in Hdate.
      destruct (getitem (reset_index result) "Date") as [r|] eqn:Gr; [|discriminate].
      destruct (getitem (reset_index reference) "Date") as [e|] eqn:Ge; [|discriminate].
      rewrite (getitem_contains _ _ _ Gr), Hdate. simpl.
      change (contains (reset_index result) "Description") with (contains result "Description").
      rewrite Hno. reflexivity.
Qed.

(** The two cases on the sample tables. *)
Lemma C5_witness :
  verify two_columns three_columns =
    Verdict false "Parser test failed. Shape mismatch: Result (2, 2) vs Expected (2, 3)"
  /\ verify renamed_column three_columns =
       Verdict false "Parser test failed. Missing column: Description".
Proof.
  split.
  - exact (proj1 (C5_missing_column_after_shape two_columns three_columns eq_refl) eq_refl).
  - exact (proj2 (C5_missing_column_after_shape renamed_column three_columns eq_refl)
             eq_refl eq_refl eq_refl).
Defined.

(** C5, as stated, fails: with the reference columns Date, Description,
    Balance and the result columns Date, Balance the reason is the shape
    mismatch, and Description occurs nowhere in it. *)
Lemma C5_counterexample :
  column_names three_columns = ["Date"; "Description"; "Balance"]
  /\ column_names two_columns = ["Date"; "Balance"]
  /\ verify two_columns three_columns =
       Verdict false "Parser test failed. Shape mismatch: Result (2, 2) vs Expected (2, 3)"
  /\ String.index 0 "Description"
       "Parser test failed. Shape mismatch: Result (2, 2) vs Expected (2, 3)" = None
  /\ verify two_columns three_columns
       <> Verdict false ("Parser test failed. " ++ diff_text (MissingColumn "Description")).
Proof.
  repeat split; try reflexivity. vm_compute; intros E; discriminate E.
Qed.

(** ** Column order *)

Lemma names_differ_not_equal (a b : DataFrame) :
  column_names a <> column_names b -> DataFrame_equals a b = false.
Proof.
  intros H. destruct (DataFrame_equals a b) eqn:E; [|reflexivity].
  apply DataFrame_equals_names in E. contradiction.
Qed.

(** C10. Whenever the result holds exactly the reference's columns (same
    labels, each label naming the same column with the same element type
    and values, same number of rows) in another order, [verify] fails and
    the reason carries no diagnostic: the text after the fixed prefix is
    empty, so the order mismatch is not named.  The sample tables
    [balance_first] and [date_first] are such a pair. *)
Theorem C10_column_order_unnamed (result reference : DataFrame) :
  NoDup (column_names reference) ->
  Permutation (columns result) (columns reference) ->
  length (index result) = length (index reference) ->
  column_names result <> column_names reference ->
  verify result reference = Verdict false "Parser test failed. "
  /\ find_difference (reset_index result) (reset_index reference) = Returns NoDifference.
Proof.
  intros Hnd Hperm Hrows Horder.
  assert (Hnd' : NoDup (column_names result)).
  { unfold column_names. eapply Permutation_NoDup; [|exact Hnd].
    apply Permutation_map, Permutation_sym, Hperm. }
  assert (Hfind : find_difference (reset_index result) (reset_index reference)
                  = Returns NoDifference).
  { unfold find_difference. rewrite !shape_reset_index. unfold shape.
    rewrite Hrows, (Permutation_length Hperm), !Nat.eqb_refl. simpl.
    apply check_columns_agree. intros col Hin.
    rewrite column_names_reset_index in Hin. unfold column_names in Hin.
    apply in_map_iff in Hin as ([c s] & <- & Hin). simpl.
    unfold column_agrees.
    rewrite (getitem_unique (reset_index result) c s),
            (getitem_unique (reset_index reference) c s); auto.
    - simpl. rewrite Hrows, Index_equals_Z_refl, array_equals_refl. reflexivity.
    - simpl. eapply Permutation_in; [apply Permutation_sym, Hperm | exact Hin]. }
  split; [|exact Hfind].
  rewrite verify_unfold. unfold compare_frames.
  rewrite names_differ_not_equal by (rewrite !column_names_reset_index; exact Horder).
  rewrite Hfind. reflexivity.
Qed.

(** Balance before Date against Date before Balance. *)
Lemma C10_witness :
  verify balance_first date_first = Verdict false "Parser test failed. "
  /\ find_difference (reset_index balance_first) (reset_index date_first)
     = Returns NoDifference.
Proof.
  apply C10_column_order_unnamed.
  - repeat constructor; simpl; intuition discriminate.
  - apply perm_swap.
  - reflexivity.
  - intros E; discriminate E.
Defined.

(** ** Declared element types *)

(** Identical tables pass, whatever their row labels were. *)
Lemma verify_identical (result reference : DataFrame) :
  columns result = columns reference ->
  length (index result) = length (index reference) ->
  verify result reference = Verdict true "Parser test passed!".
Proof.
  intros Hc Hr. rewrite verify_unfold. unfold compare_frames.
  replace (DataFrame_equals (reset_index result) (reset_index reference)) with true;
    [reflexivity|].
  symmetry. unfold DataFrame_equals, reset_index, column_names; simpl.
  rewrite Hc, Hr, Index_equals_Z_refl. unfold Index_equals.
  rewrite (proj2 (list_eqb_string _ _) eq_refl). simpl.
  apply list_eqb_refl. intros; apply array_equals_refl.
Qed.

(** A column whose declared element type differs is reported as not
    matching, even when its values are the same. *)
Lemma array_equals_dtype (s t : Series) :
  s_dtype s <> s_dtype t -> array_equals s t = false.
Proof.
  unfold array_equals. intros H.
  destruct (s_dtype s), (s_dtype t); simpl; try reflexivity; congruence.
Qed.

(** C4 (the code departs from it). The result and the reference below have
    the same shape, the same column labels in the same order and
    equivalent values position by position; the column Balance is declared
    [float64] in one and [int64] in the other.  [verify] of [agent.py]
    fails on them, naming Balance, while the harness of [test_parser.py],
    which compares with [check_dtype=False], passes the same pair. *)
Theorem C4_declared_type_decides :
  shape typed_result = shape typed_reference
  /\ column_names typed_result = column_names typed_reference
  /\ same_values typed_result typed_reference = true
  /\ verify typed_result typed_reference =
       Verdict false "Parser test failed. Column Balance doesn't match"
  /\ TestParser.test_parser true (Loaded (Some (Returned (Frame typed_result))))
                            (ReadOk typed_reference)
     = TestParser.TestPassed.
Proof. repeat split; vm_compute; reflexivity. Qed.

(** ** What the candidate raises *)

(** C6 (amended). When the candidate's entry point raises an error [e], an
    instance of [Exception], [test_parser] returns a failed verdict whose
    reason is the fixed prefix followed by [str(e)], and nothing is raised
    out of the verification.  A [SystemExit] raised by the entry point is
    not caught: it leaves [test_parser] with its status, whatever the
    status is. *)
Theorem C6_raised_error_is_verdict (csv : read_outcome) :
  (forall e : pyerror,
     test_parser (Loaded (Some (Raised (Error e)))) csv
     = Verdict false ("Error testing parser: " ++ err_str e))
  /\ (forall status : exit_argument,
        test_parser (Loaded (Some (Raised (SystemExit status)))) csv
        = Uncaught (SystemExit status)).
Proof. split; reflexivity. Qed.

(** C6, as stated, fails: an entry point that calls [sys.exit(2)] raises,
    and the raise goes through [test_parser]; no verdict is returned. *)
Lemma C6_counterexample :
  exec_sample 1 exiting_source = Loaded (Some (Raised (SystemExit (ExitInt 2))))
  /\ test_parser (exec_sample 1 exiting_source) (ReadOk three_columns)
     = Uncaught (SystemExit (ExitInt 2)).
Proof. split; reflexivity. Qed.

Lemma last_char_append (s : string) (c : ascii) (t : string) :
  last_char (s ++ String c t) = last_char (String c t).
Proof.
  induction s as [|d s IH]; [reflexivity|].
  change ((String d s) ++ String c t) with (String d (s ++ String c t)).
  rewrite <- IH. simpl. destruct (s ++ String c t) eqn:E; [|reflexivity].
  destruct s; discriminate E.
Qed.

Lemma string_append_assoc (s t u : string) : (s ++ t) ++ u = s ++ t ++ u.
Proof. induction s as [|c s IH]; simpl; [reflexivity | rewrite IH; reflexivity]. Qed.

Lemma SyntaxError_str_last (msg file : string) (line : nat) :
  last_char (err_str (SyntaxError msg file line)) = Some ")"%char.
Proof.
  unfold SyntaxError, err_str.
  rewrite <- !string_append_assoc.
  apply last_char_append.
Qed.

(** C8. A module without the attribute [parse] and a source that does not
    compile both give a failed verdict, and the two reports differ: the
    first is the attribute error of the missing name, the second carries
    the compiler's message with file and line.  The report for a [parse]
    that is not callable differs from the second as well.  The harness's
    [load_parser] likewise refuses the module without [parse] by an
    [AttributeError] of its own and lets the [SyntaxError] through, errors
    of different classes. *)
Theorem C8_missing_entry_point_distinct
    (msg file : string) (line : nat) (csv csv' : read_outcome) :
  let missing := Loaded None in
  let broken := LoadRaised (Error (SyntaxError msg file line)) in
  test_parser missing csv
    = Verdict false "Error testing parser: module 'custom_parser' has no attribute 'parse'"
  /\ test_parser broken csv'
     = Verdict false ("Error testing parser: " ++ err_str (SyntaxError msg file line))
  /\ test_parser missing csv <> test_parser broken csv'
  /\ (forall ty,
        test_parser (Loaded (Some (Raised (Error (not_callable ty))))) csv
        <> test_parser broken csv')
  /\ TestParser.load_parser true missing
     = TestParser.Failed
         (Error (AttributeError "Generated parser does not implement parse(pdf_path)"))
  /\ TestParser.load_parser true broken
     = TestParser.Failed (Error (SyntaxError msg file line))
  /\ err_class (AttributeError "Generated parser does not implement parse(pdf_path)")
     <> err_class (SyntaxError msg file line).
Proof.
  cbv zeta. repeat split; try reflexivity.
  - unfold test_parser, test_parser_body. cbn [exec_module_step call_parse bind handled].
    intros E. injection E as E.
    change (err_str (AttributeError "module 'custom_parser' has no attribute 'parse'")
            = err_str (SyntaxError msg file line)) in E.
    apply (f_equal last_char) in E.
    rewrite SyntaxError_str_last in E. discriminate E.
  - intros ty. unfold test_parser, test_parser_body.
    cbn [exec_module_step call_parse bind handled].
    intros E. injection E as E.
    change (err_str (not_callable ty) = err_str (SyntaxError msg file line)) in E.
    apply (f_equal last_char) in E.
    rewrite SyntaxError_str_last in E.
    unfold not_callable, err_str in E.
    rewrite <- string_append_assoc in E.
    change "' object is not callable" with ("' object is not callabl" ++ "e") in E.
    rewrite <- string_append_assoc, last_char_append in E. discriminate E.
  - simpl. intros E; discriminate E.
Qed.

End Verification.

(* ================================================================== *)
(** * The retry loop *)

Section RetryLoop.
Import Python Pandas Agent Samples.

Variable env : environment.

(** Unfolds one turn of the loop and of [turns], by the cases of what
    synthesis, the write and the test gave. *)
Ltac loop_step k IH :=
  cbn [attempts_loop turns]; unfold turn, passed, escaped, write_failed, raise_of;
  destruct (generate_parser_code (generate_content env k)) as [[|? ?]|]; cbn;
  [ rewrite IH
  | destruct (write_file env k _) as [|?|? ?]; cbn;
    [ destruct (test_parser _ _) as [[|] ?|?]; cbn;
      [ | rewrite IH; destruct (Nat.eqb k 3) | ]
    | | ]
  | rewrite IH ]; cbn.

(** What the loop leaves behind, in terms of the turns it makes. *)
Lemma loop_history (todo : list nat) (st : state) :
  history (final (attempts_loop env todo st))
  = (rev (turns env todo) ++ history st)%list.
Proof.
  revert st; induction todo as [|k rest IH]; intros st; [reflexivity|].
  loop_step k IH; try rewrite <- app_assoc; reflexivity.
Qed.

Lemma loop_artifact (todo : list nat) (st : state) :
  artifact (final (attempts_loop env todo st))
  = file_after (artifact st) (turns env todo).
Proof.
  revert st; induction todo as [|k rest IH]; intros st; [reflexivity|].
  loop_step k IH; reflexivity.
Qed.

Lemma loop_announced (todo : list nat) (st : state) :
  flat_map announced (printed (final (attempts_loop env todo st)))
  = (rev (map att_number (turns env todo)) ++ flat_map announced (printed st))%list.
Proof.
  revert st; induction todo as [|k rest IH]; intros st; [reflexivity|].
  loop_step k IH; try rewrite <- app_assoc; reflexivity.
Qed.

Lemma loop_ending (todo : list nat) (st : state) :
  ending_of (attempts_loop env todo st)
  = match first_raise (turns env todo) with
    | Some x => Unhandled x
    | None => Completed
    end.
Proof.
  revert st; induction todo as [|k rest IH]; intros st; [reflexivity|].
  loop_step k IH; reflexivity.
Qed.

Lemma loop_last_line (todo : list nat) (st : state) :
  first_raise (turns env todo) = None ->
  hd_error (printed (final (attempts_loop env todo st)))
  = Some (if existsb passed (turns env todo) then ParserSaved else FailedAfter3Attempts).
Proof.
  revert st; induction todo as [|k rest IH]; intros st; [reflexivity|].
  cbn [attempts_loop turns]. unfold turn, passed, escaped, write_failed, raise_of.
  destruct (generate_parser_code (generate_content env k)) as [[|c code]|]; cbn.
  - intros H. rewrite (IH _ H). reflexivity.
  - destruct (write_file env k _) as [|e|e kept]; cbn; try discriminate.
    destruct (test_parser _ _) as [[|] reason|x]; cbn.
    + reflexivity.
    + intros H. destruct (Nat.eqb k 3); rewrite (IH _ H); reflexivity.
    + discriminate.
  - intros H. rewrite (IH _ H). reflexivity.
Qed.

(** A turn ends the run by a raise exactly when its write failed or its
    test let a raise through. *)
Lemma raise_of_None (a : attempt_record) :
  raise_of a = None <-> escaped a = false /\ write_failed a = false.
Proof.
  unfold raise_of, escaped, write_failed.
  destruct (att_write a) as [[|e|e kept]|], (att_test a) as [[s m|x]|];
    intuition discriminate.
Qed.

Lemma raise_of_stops (a : attempt_record) (x : raised) :
  raise_of a = Some x -> passed a || escaped a || write_failed a = true.
Proof.
  intros H. destruct (escaped a) eqn:E; [apply orb_true_iff; left; apply orb_true_r|].
  destruct (write_failed a) eqn:W; [apply orb_true_r|].
  rewrite (proj2 (raise_of_None a) (conj E W)) in H. discriminate H.
Qed.

(** The line a turn that ends the run by a raise leaves last on the
    output. *)
Lemma loop_last_line_raise (todo : list nat) (st : state) (i : nat) (a : attempt_record) :
  nth_error (turns env todo) i = Some a -> raise_of a <> None ->
  hd_error (printed (final (attempts_loop env todo st)))
  = Some (if write_failed a then AttemptStarts (att_number a) else Testing).
Proof.
  revert st i; induction todo as [|k rest IH]; intros st i; [destruct i; discriminate|].
  cbn [attempts_loop turns]. unfold turn, passed, escaped, write_failed, raise_of.
  destruct (generate_parser_code (generate_content env k)) as [[|c code]|]; cbn.
  - destruct i as [|i]; cbn.
    + intros E; injection E as <-. cbn. intros N; contradiction N; reflexivity.
    + intros E N. apply (IH _ i E N).
  - destruct (write_file env k _) as [|e|e kept]; cbn.
    + destruct (test_parser _ _) as [[|] reason|x]; cbn.
      * destruct i as [|[|i]]; cbn; try discriminate.
        intros E; injection E as <-. cbn. intros N; contradiction N; reflexivity.
      * destruct i as [|i]; cbn.
        -- intros E; injection E as <-. cbn. intros N; contradiction N; reflexivity.
        -- intros E N. destruct (Nat.eqb k 3); apply (IH _ i E N).
      * destruct i as [|[|i]]; cbn; try discriminate.
        intros E; injection E as <-. reflexivity.
    + destruct i as [|[|i]]; cbn; try discriminate.
      intros E; injection E as <-. reflexivity.
    + destruct i as [|[|i]]; cbn; try discriminate.
      intros E; injection E as <-. reflexivity.
  - destruct i as [|i]; cbn.
    + intros E; injection E as <-. cbn. intros N; contradiction N; reflexivity.
    + intros E N. apply (IH _ i E N).
Qed.

(** The loop makes no more turns than it has attempt numbers, numbers them
    in order, and stops at a turn that passes or ends the process. *)
Lemma turns_length (todo : list nat) : length (turns env todo) <= length todo.
Proof.
  induction todo as [|k rest IH]; simpl; [lia|].
  destruct (passed (turn env k) || escaped (turn env k) || write_failed (turn env k));
    simpl; lia.
Qed.

Lemma turns_nth (todo : list nat) (i : nat) (a : attempt_record) :
  nth_error (turns env todo) i = Some a ->
  exists k, nth_error todo i = Some k /\ a = turn env k.
Proof.
  revert i; induction todo as [|k rest IH]; intros [|i]; simpl; try discriminate.
  - intros E; injection E as <-. exists k; auto.
  - destruct (passed (turn env k) || escaped (turn env k) || write_failed (turn env k));
      [destruct i; discriminate|]. apply IH.
Qed.

Lemma turns_stop (todo : list nat) (i : nat) (a : attempt_record) :
  nth_error (turns env todo) i = Some a ->
  passed a || escaped a || write_failed a = true ->
  length (turns env todo) = S i.
Proof.
  revert i; induction todo as [|k rest IH]; intros [|i]; simpl; try discriminate.
  - intros E; injection E as <-. intros ->. reflexivity.
  - destruct (passed (turn env k) || escaped (turn env k) || write_failed (turn env k));
      [destruct i; discriminate|].
    intros E P. simpl. f_equal. eapply IH; eassumption.
Qed.

Lemma turns_go_on (todo : list nat) :
  (forall a, In a (turns env todo) ->
             passed a || escaped a || write_failed a = false) ->
  length (turns env todo) = length todo.
Proof.
  induction todo as [|k rest IH]; simpl; [reflexivity|].
  intros H. pose proof (H _ (or_introl eq_refl)) as Hk. rewrite Hk in *.
  f_equal. apply IH. intros a Hin. apply H. right; exact Hin.
Qed.

Lemma first_raise_None (l : list attempt_record) :
  first_raise l = None <-> forall a, In a l -> raise_of a = None.
Proof.
  induction l as [|a l IH]; cbn [first_raise In].
  - split; [intros _ ? [] | reflexivity].
  - destruct (raise_of a) as [x|] eqn:E.
    + split; [discriminate|]. intros H. rewrite <- E. apply H. left; reflexivity.
    + rewrite IH. split.
      * intros H b [<-|Hb]; auto.
      * intros H b Hb. apply H. right; exact Hb.
Qed.

Lemma first_raise_Some (l : list attempt_record) (x : raised) :
  first_raise l = Some x -> exists a, In a l /\ raise_of a = Some x.
Proof.
  induction l as [|a l IH]; simpl; [discriminate|].
  destruct (raise_of a) as [y|] eqn:E.
  - intros H. injection H as ->. exists a; auto.
  - intros H. destruct (IH H) as (b & Hb & Eb). exists b; auto.
Qed.

(** A turn that ends the process is the last turn, so the raise the
    process ends with is that turn's. *)
Lemma first_raise_In (todo : list nat) (a : attempt_record) (x : raised) :
  In a (turns env todo) -> raise_of a = Some x ->
  first_raise (turns env todo) = Some x.
Proof.
  induction todo as [|k rest IH]; cbn [turns In first_raise]; [intros []|].
  intros [<-|Hin] E.
  - rewrite E. reflexivity.
  - destruct (raise_of (turn env k)) as [y|] eqn:Ek.
    + rewrite (raise_of_stops _ _ Ek) in Hin. destruct Hin.
    + destruct (passed (turn env k) || escaped (turn env k) || write_failed (turn env k));
        [destruct Hin | apply IH; assumption].
Qed.

(** While no write fails, the file holds what was last generated. *)
Lemma file_after_last_written (todo : list nat) (before : option string) :
  (forall a, In a (turns env todo) -> write_failed a = false) ->
  file_after before (turns env todo) = last_written before (turns env todo).
Proof.
  revert before; induction todo as [|k rest IH]; intros before H; [reflexivity|].
  cbn [turns] in *.
  pose proof (H _ (or_introl eq_refl)) as Hk.
  assert (Hstep : left_by (turn env k) before
                  = if truthy (att_code (turn env k)) then att_code (turn env k) else before).
  { revert Hk. unfold turn, write_failed, left_by.
    destruct (generate_parser_code (generate_content env k)) as [[|c code]|]; cbn;
      try reflexivity.
    destruct (write_file env k _); cbn; [reflexivity | discriminate | discriminate]. }
  unfold file_after, last_written in *. cbn [fold_left]. rewrite Hstep.
  destruct (passed (turn env k) || escaped (turn env k) || write_failed (turn env k));
    [reflexivity|].
  apply IH. intros a Ha. apply H. right; exact Ha.
Qed.

(** [main] either stops before the loop with [sys.exit(1)], or runs the
    loop over the attempt numbers 1, 2, 3. *)
Lemma main_cases :
  (ending_of (main env) = Exit 1
   /\ flat_map announced (printed (final (main env))) = []
   /\ history (final (main env)) = []
   /\ artifact (final (main env)) = artifact_before env
   /\ setup_fails env)
  \/ (exists st,
        main env = attempts_loop env (seq 1 3) st
        /\ flat_map announced (printed st) = []
        /\ history st = [] /\ artifact st = artifact_before env
        /\ ~ setup_fails env).
Proof.
  unfold main, setup_fails.
  destruct (pdf_exists env) eqn:Hp; cbn [negb]; [|left; repeat split; auto].
  destruct (csv_exists env) eqn:Hc; cbn [negb]; [|left; repeat split; auto].
  destruct (extract_text_from_pdf (open_pdf env)) as [text|] eqn:Hx;
    [|left; repeat split; auto].
  destruct (analyze_csv_file (read_csv env 0)) as [[df info]|] eqn:Ha;
    [|left; repeat split; auto 6].
  right. eexists. split; [reflexivity|]. repeat split; auto.
  intros [E|[E|[E|E]]]; discriminate E.
Qed.

Lemma attempts_of_loop (st : state) :
  history st = [] ->
  attempts (attempts_loop env (seq 1 3) st) = turns env (seq 1 3).
Proof.
  intros H. unfold attempts.
  rewrite loop_history, H, app_nil_r, rev_involutive. reflexivity.
Qed.

End RetryLoop.

Section Runs.
Import Python Pandas Agent Samples.

(** C2 (amended). A run makes at most three attempts, and the attempts it
    announces on its output are those it makes.  The attempt made in
    position [i] is attempt number [i + 1] of the surroundings, and when
    its verdict passes it is the last one made and the run completes on the
    success lines.  When three attempts are made and each fails, by a
    failed verdict or for want of code, the run completes on the line
    reporting the failure after three attempts; and a run that completes
    without a passing attempt has made exactly three.  An attempt that
    ends the process, because the write of its code raises or because a
    raise leaves its test, is the last one made as well, and then nothing
    is reported: the last line on the output is the announcement of the
    attempt, or of the test. *)
Theorem C2_at_most_three_attempts (env : environment) :
  let r := main env in
  length (attempts r) <= 3
  /\ attempts_started r = map att_number (attempts r)
  /\ (forall i a,
        nth_error (attempts r) i = Some a ->
        a = turn env (S i)
        /\ (passed a = true ->
            length (attempts r) = S i
            /\ ending_of r = Completed /\ last_line r = Some ParserSaved))
  /\ (length (attempts r) = 3 ->
      (forall a, In a (attempts r) ->
                 passed a = false /\ escaped a = false /\ write_failed a = false) ->
      ending_of r = Completed /\ last_line r = Some FailedAfter3Attempts)
  /\ (ending_of r = Completed ->
      (forall a, In a (attempts r) -> passed a = false) ->
      length (attempts r) = 3 /\ last_line r = Some FailedAfter3Attempts)
  /\ (forall i a x,
        nth_error (attempts r) i = Some a -> raise_of a = Some x ->
        length (attempts r) = S i
        /\ ending_of r = Unhandled x
        /\ last_line r = Some (if write_failed a then AttemptStarts (S i) else Testing)).
Proof.
  cbv zeta.
  destruct (main_cases env) as [(Hend & Hpr & Hh & _ & _) | (st & -> & Hpr & Hh & _)].
  - unfold attempts, attempts_started. rewrite Hh, Hpr, Hend. cbn [rev length map].
    split; [lia|]. split; [reflexivity|]. split; [|split; [|split]].
    + intros [|i] a E; discriminate E.
    + intros E; discriminate E.
    + intros E; discriminate E.
    + intros [|i] a x E; discriminate E.
  - rewrite (attempts_of_loop env st Hh).
    unfold last_line, attempts_started.
    rewrite loop_ending, loop_announced, Hpr, app_nil_r, rev_involutive.
    split; [apply (turns_length env (seq 1 3))|]. split; [reflexivity|].
    assert (Hnone : (forall a, In a (turns env (seq 1 3)) -> passed a = false) ->
                    existsb passed (turns env (seq 1 3)) = false).
    { intros Hall. apply not_true_is_false. intros E.
      apply existsb_exists in E as (a & Hin & Hp).
      rewrite (Hall a Hin) in Hp; discriminate Hp. }
    assert (Hnum : forall i a, nth_error (turns env (seq 1 3)) i = Some a ->
                               a = turn env (S i)).
    { intros i a Hnth. destruct (turns_nth env _ _ _ Hnth) as (k & Hk & ->).
      assert (k = S i) as ->; [|reflexivity].
      destruct i as [|[|[|i]]]; cbn in Hk; try congruence. destruct i; discriminate Hk. }
    split; [|split; [|split]].
    + intros i a Hnth. split; [apply (Hnum i a Hnth)|]. intros Hp.
      assert (Hlen : length (turns env (seq 1 3)) = S i).
      { apply (turns_stop env _ _ _ Hnth). rewrite Hp; reflexivity. }
      assert (Hesc : first_raise (turns env (seq 1 3)) = None).
      { apply first_raise_None. intros b Hb.
        apply In_nth_error in Hb as (j & Hj).
        destruct (raise_of b) as [x|] eqn:Eb; [|reflexivity].
        assert (Hj' : length (turns env (seq 1 3)) = S j).
        { apply (turns_stop env _ _ _ Hj). apply (raise_of_stops _ _ Eb). }
        assert (j = i) by lia. subst j. rewrite Hnth in Hj. injection Hj as <-.
        rewrite (Hnum i a Hnth) in Hp, Eb. revert Hp Eb.
        unfold turn, passed, raise_of.
        destruct (generate_parser_code (generate_content env (S i))) as [[|c code]|]; cbn;
          try discriminate.
        destruct (write_file env (S i) _); cbn; try discriminate.
        destruct (test_parser _ _) as [[|] ?|?]; discriminate. }
      rewrite Hesc, (loop_last_line env _ _ Hesc).
      replace (existsb passed (turns env (seq 1 3))) with true; [auto|].
      symmetry. apply existsb_exists. exists a.
      split; [eapply nth_error_In; exact Hnth | exact Hp].
    + intros _ Hall.
      assert (Hesc : first_raise (turns env (seq 1 3)) = None).
      { apply first_raise_None. intros a Hin. apply raise_of_None.
        destruct (Hall a Hin) as (_ & He & Hw). auto. }
      rewrite Hesc, (loop_last_line env _ _ Hesc), Hnone; [auto|].
      intros a Hin. apply (Hall a Hin).
    + intros Hend Hall.
      destruct (first_raise (turns env (seq 1 3))) as [x|] eqn:Hesc;
        [discriminate Hend|].
      rewrite (loop_last_line env _ _ Hesc), (Hnone Hall). split; [|reflexivity].
      apply (turns_go_on env (seq 1 3)). intros a Hin.
      destruct (proj1 (raise_of_None a) (proj1 (first_raise_None _) Hesc a Hin)) as [He Hw].
      rewrite (Hall a Hin), He, Hw. reflexivity.
    + intros i a x Hnth Hx.
      split; [apply (turns_stop env _ _ _ Hnth), (raise_of_stops _ _ Hx)|].
      rewrite (first_raise_In env _ _ _ (nth_error_In _ _ Hnth) Hx).
      split; [reflexivity|].
      rewrite (loop_last_line_raise env _ _ _ _ Hnth) by (rewrite Hx; discriminate).
      replace (att_number a) with (S i); [reflexivity|].
      rewrite (Hnum i a Hnth). unfold turn.
      destruct (generate_parser_code (generate_content env (S i))) as [[|c code]|];
        reflexivity.
Qed.

(** A run whose second attempt passes, and a run where none does. *)
Lemma C2_witness :
  (length (attempts (main passes_second)) = 2
   /\ ending_of (main passes_second) = Completed
   /\ last_line (main passes_second) = Some ParserSaved)
  /\ (ending_of (main never_passes) = Completed
      /\ last_line (main never_passes) = Some FailedAfter3Attempts).
Proof.
  split.
  - apply (proj1 (proj2 (proj2 (C2_at_most_three_attempts passes_second)))
             1 (turn passes_second 2)); reflexivity.
  - apply (proj1 (proj2 (proj2 (proj2 (C2_at_most_three_attempts never_passes)))));
      [reflexivity|].
    intros a Hin. vm_compute in Hin.
    destruct Hin as [<-|[<-|[<-|[]]]]; repeat split; reflexivity.
Defined.

(** C2, as stated, fails: here the first two attempts fail and the code of
    the third calls [sys.exit(2)] when it is tested.  Three attempts are
    made and none passes, yet no failure is reported: the output ends on
    the announcement of the third test, and the process ends by the
    candidate's exit. *)
Lemma C2_counterexample :
  map att_number (attempts (main third_exits)) = [1; 2; 3]
  /\ map passed (attempts (main third_exits)) = [false; false; false]
  /\ last_line (main third_exits) = Some Testing
  /\ existsb reports_failure (printed (final (main third_exits))) = false
  /\ ending_of (main third_exits) = Unhandled (SystemExit (ExitInt 2)).
Proof. repeat split; reflexivity. Qed.

(** ** The artifact *)

Lemma last_written_app (before : option string) (l : list attempt_record) (a : attempt_record) :
  last_written before (l ++ [a])%list
  = if truthy (att_code a) then att_code a else last_written before l.
Proof. unfold last_written. rewrite fold_left_app. reflexivity. Qed.

Lemma nth_error_last {A : Type} (l : list A) (i : nat) (a : A) :
  nth_error l i = Some a -> length l = S i -> l = (firstn i l ++ [a])%list.
Proof.
  revert i; induction l as [|x l IH]; intros [|i]; simpl; try discriminate.
  - intros E L. injection E as ->. destruct l; [reflexivity | discriminate L].
  - intros E L. f_equal. apply IH; [exact E | lia].
Qed.

Lemma main_artifact (env : environment) :
  artifact (final (main env)) = file_after (artifact_before env) (attempts (main env)).
Proof.
  destruct (main_cases env) as [(_ & _ & Hh & Ha & _) | (st & -> & _ & Hh & Ha & _)].
  - unfold attempts. rewrite Hh, Ha. reflexivity.
  - rewrite (attempts_of_loop env st Hh), loop_artifact, Ha. reflexivity.
Qed.

Lemma main_last_written (env : environment) :
  (forall a, In a (attempts (main env)) -> write_failed a = false) ->
  artifact (final (main env))
  = last_written (artifact_before env) (attempts (main env)).
Proof.
  intros Hw. rewrite main_artifact.
  destruct (main_cases env) as [(_ & _ & Hh & _ & _) | (st & E & _ & Hh & _ & _)].
  - unfold attempts. rewrite Hh. reflexivity.
  - rewrite E in Hw |- *. rewrite (attempts_of_loop env st Hh) in Hw |- *.
    apply file_after_last_written. exact Hw.
Qed.

Lemma completed_writes (env : environment) :
  ending_of (main env) = Completed ->
  forall a, In a (attempts (main env)) -> write_failed a = false.
Proof.
  destruct (main_cases env) as [(Hend & _) | (st & -> & _ & Hh & _)].
  - rewrite Hend. discriminate.
  - rewrite (attempts_of_loop env st Hh), loop_ending.
    destruct (first_raise (turns env (seq 1 3))) as [x|] eqn:E; [discriminate|].
    intros _ a Hin.
    apply (proj1 (raise_of_None a) (proj1 (first_raise_None _) E a Hin)).
Qed.

(** C3 (amended). When the run ends, the file at the artifact path holds
    what the writes of the attempts left in it, in the order made.  As
    long as no write raises, and so whenever the loop ends by a pass or by
    exhaustion, this is the code of the most recent attempt whose
    synthesis returned code (and what the file held before the run when
    none did): each attempt that generated code overwrote it, an attempt
    without code left it alone.  In particular, when the last attempt made
    generated code, the file holds exactly that code, whether that attempt
    passed or failed. *)
Theorem C3_artifact_is_last_written (env : environment) :
  let r := main env in
  artifact (final r) = file_after (artifact_before env) (attempts r)
  /\ (ending_of r = Completed ->
      forall a, In a (attempts r) -> write_failed a = false)
  /\ ((forall a, In a (attempts r) -> write_failed a = false) ->
      artifact (final r) = last_written (artifact_before env) (attempts r)
      /\ (forall i a code,
            nth_error (attempts r) i = Some a -> length (attempts r) = S i ->
            att_code a = Some code -> code <> EmptyString ->
            artifact (final r) = Some code)).
Proof.
  cbv zeta. split; [apply main_artifact|]. split; [apply completed_writes|]. intros Hw.
  pose proof (main_last_written env Hw) as H.
  split; [exact H|].
  intros i a code Hnth Hlen Hcode Hne. rewrite H.
  rewrite (nth_error_last _ _ _ Hnth Hlen), last_written_app, Hcode.
  destruct code; [contradiction | reflexivity].
Qed.

(** Three failing attempts: the file holds the third attempt's code. *)
Lemma C3_witness :
  artifact (final (main never_passes)) = Some poor_source.
Proof.
  refine (proj2 (proj2 (proj2 (C3_artifact_is_last_written never_passes))
                       (proj1 (proj2 (C3_artifact_is_last_written never_passes)) eq_refl))
                2 (turn never_passes 3) poor_source _ _ _ _); try reflexivity.
  intros E; discriminate E.
Defined.

(** C3, as stated, fails: here the third and last attempt generates no
    code, and the file holds the code of the second attempt. *)
Lemma C3_counterexample :
  ending_of (main third_gives_no_code) = Completed
  /\ map att_number (attempts (main third_gives_no_code)) = [1; 2; 3]
  /\ map att_code (attempts (main third_gives_no_code))
     = [Some poor_source; Some other_source; None]
  /\ artifact (final (main third_gives_no_code)) = Some other_source.
Proof. repeat split; reflexivity. Qed.

(** ** The exit code *)

Lemma extract_pages_None (pages : list page_outcome) (text : string) :
  extract_pages pages text = None <-> exists e, In (PageRaised e) pages.
Proof.
  revert text; induction pages as [|[e|t] pages IH]; intros text; simpl.
  - split; [discriminate | intros (e & [])].
  - split; [intros _; exists e; auto | reflexivity].
  - destruct (truthy t); rewrite IH; split; intros (e & H); exists e;
      try (right; exact H); destruct H as [H|H]; try discriminate H; exact H.
Qed.

(** The low eight bits of an integer status that fits a [long]. *)
Lemma termination_of_exit (n : Z) :
  fits_long n = true -> termination_of (SystemExit (ExitInt n)) = ExitCode (n mod 256).
Proof. intros H. unfold termination_of. rewrite H. reflexivity. Qed.

(** C7 (amended). When the sample PDF or the sample CSV is absent, or the
    extraction of the PDF's text or the analysis of the CSV fails, the
    process exits with code 1 before any attempt.  Otherwise, as long as
    no attempt ends the process (no write of the artifact raises and no
    raise leaves a test), the run completes with exit code 0, on the
    success lines when an attempt passed and on the line reporting the
    failure after three attempts when none did.  An attempt that ends the
    process decides how it ends: the error of a failed write gives exit
    code 1; a raise that leaves the test ends the process as the
    interpreter ends on it, a [SystemExit] with an integer status that
    fits a [long] giving the low eight bits of the status as exit code. *)
Theorem C7_exit_code (env : environment) :
  let r := main env in
  (setup_fails env -> exit_code r = ExitCode 1 /\ attempts r = [])
  /\ (~ setup_fails env ->
      (forall a, In a (attempts r) -> escaped a = false /\ write_failed a = false) ->
      exit_code r = ExitCode 0 /\ ending_of r = Completed
      /\ last_line r
         = Some (if existsb passed (attempts r) then ParserSaved else FailedAfter3Attempts))
  /\ (forall a x,
        In a (attempts r) -> raise_of a = Some x ->
        ending_of r = Unhandled x /\ exit_code r = termination_of x)
  /\ (forall a, In a (attempts r) -> write_failed a = true -> exit_code r = ExitCode 1)
  /\ (forall a n,
        In a (attempts r) -> att_test a = Some (Uncaught (SystemExit (ExitInt n))) ->
        fits_long n = true -> exit_code r = ExitCode (n mod 256)).
Proof.
  cbv zeta.
  destruct (main_cases env) as [(Hend & _ & Hh & _ & Hf) | (st & -> & _ & Hh & _ & Hok)].
  - unfold exit_code, attempts. rewrite Hend, Hh. cbn [rev].
    split; [auto|]. split; [intros H; contradiction|].
    split; [intros a x []|]. split; [intros a []|intros a n []].
  - rewrite (attempts_of_loop env st Hh). unfold exit_code, last_line.
    rewrite loop_ending.
    assert (Hraise : forall a x, In a (turns env (seq 1 3)) -> raise_of a = Some x ->
              match first_raise (turns env (seq 1 3)) with
              | Some y => Unhandled y
              | None => Completed
              end = Unhandled x
              /\ match match first_raise (turns env (seq 1 3)) with
                       | Some y => Unhandled y
                       | None => Completed
                       end with
                 | Unhandled y => termination_of y
                 | Completed => ExitCode 0
                 end = termination_of x).
    { intros a x Hin E. rewrite (first_raise_In env _ _ _ Hin E). split; reflexivity. }
    split; [intros H; contradiction|]. split; [|split; [exact Hraise|split]].
    + intros _ Hall.
      assert (Hnone : first_raise (turns env (seq 1 3)) = None).
      { apply first_raise_None. intros a Hin. apply raise_of_None, Hall, Hin. }
      rewrite Hnone, (loop_last_line env _ _ Hnone). auto.
    + intros a Hin Hw.
      assert (E : exists e, raise_of a = Some (Error e)).
      { revert Hw. unfold write_failed, raise_of.
        destruct (att_write a) as [[|e|e kept]|]; try discriminate; intros _; exists e;
          reflexivity. }
      destruct E as [e E]. rewrite (proj2 (Hraise a _ Hin E)). reflexivity.
    + intros a n Hin E Hfits.
      assert (Hx : raise_of a = Some (SystemExit (ExitInt n))).
      { destruct (in_split _ _ Hin) as (l1 & l2 & Hl).
        assert (Hnth : nth_error (turns env (seq 1 3)) (length l1) = Some a).
        { rewrite Hl, nth_error_app2, Nat.sub_diag by lia. reflexivity. }
        destruct (turns_nth env _ _ _ Hnth) as (k & _ & ->).
        revert E. unfold turn, raise_of.
        destruct (generate_parser_code (generate_content env k)) as [[|c code]|]; cbn;
          try discriminate.
        destruct (write_file env k _); cbn; try discriminate.
        intros E; injection E as ->. reflexivity. }
      rewrite (proj2 (Hraise a _ Hin Hx)). apply termination_of_exit, Hfits.
Qed.

(** A run that completes after three failed attempts, and a run without
    the sample PDF. *)
Lemma C7_witness :
  (exit_code (main never_passes) = ExitCode 0
   /\ ending_of (main never_passes) = Completed
   /\ last_line (main never_passes) = Some FailedAfter3Attempts)
  /\ (exit_code (main pdf_missing) = ExitCode 1 /\ attempts (main pdf_missing) = []).
Proof.
  split.
  - apply (proj1 (proj2 (C7_exit_code never_passes))).
    + intros [E|[E|[E|E]]]; discriminate E.
    + intros a Hin. vm_compute in Hin.
      destruct Hin as [<-|[<-|[<-|[]]]]; split; reflexivity.
  - apply (proj1 (C7_exit_code pdf_missing)). left; reflexivity.
Defined.

(** C7, as stated, fails: both samples are present and analysed, and the
    process exits with code 2, because the first candidate calls
    [sys.exit(2)] when it is run. *)
Lemma C7_counterexample :
  pdf_exists exits_during_test = true
  /\ csv_exists exits_during_test = true
  /\ extract_text_from_pdf (open_pdf exits_during_test) = Some "Date Description Balance
"
  /\ option_map fst (analyze_csv_file (read_csv exits_during_test 0)) = Some three_columns
  /\ map att_test (attempts (main exits_during_test))
     = [Some (Uncaught (SystemExit (ExitInt 2)))]
  /\ exit_code (main exits_during_test) = ExitCode 2.
Proof. repeat split; reflexivity. Qed.

End Runs.

(* ================================================================== *)
(** * Numeric normalisation of the example parser *)

Section Amounts.
Import Python IciciParser.

(** Reading a character class off its code. *)
Ltac by_code :=
  unfold is_digit, is_space, float_is_space, lower in *;
  repeat match goal with
         | H : context [Nat.leb ?a ?b] |- _ => destruct (Nat.leb_spec a b)
         | |- context [Nat.leb ?a ?b] => destruct (Nat.leb_spec a b)
         | |- context [Nat.eqb ?a ?b] => destruct (Nat.eqb_spec a b)
         end;
  simpl in *; try reflexivity; try discriminate; try lia.

Lemma digit_not_space (c : ascii) : is_digit c = true -> is_space c = false.
Proof. intros H. by_code. Qed.

Lemma digit_not_float_space (c : ascii) : is_digit c = true -> float_is_space c = false.
Proof. intros H. by_code. Qed.

Lemma digit_lower (c : ascii) : is_digit c = true -> lower c = c.
Proof. intros H. by_code. Qed.

Lemma digit_differs (c d : ascii) :
  is_digit c = true -> is_digit d = false -> Ascii.eqb c d = false.
Proof.
  intros Hc Hd. destruct (Ascii.eqb_spec c d) as [->|]; [congruence | reflexivity].
Qed.

Lemma plain_char_cases (c : ascii) :
  plain_char c = true -> is_digit c = true \/ c = "."%char.
Proof.
  unfold plain_char. intros H. apply orb_prop in H as [H|H]; [left; exact H|].
  right. apply Ascii.eqb_eq; exact H.
Qed.

Lemma amount_char_cases (c : ascii) :
  amount_char c = true -> is_digit c = true \/ c = ","%char \/ c = "."%char.
Proof.
  unfold amount_char. intros H.
  apply orb_prop in H as [H|H]; [apply orb_prop in H as [H|H]|].
  - left; exact H.
  - right; left. apply Ascii.eqb_eq; exact H.
  - right; right. apply Ascii.eqb_eq; exact H.
Qed.

Lemma is_space_amount (c : ascii) : amount_char c = true -> is_space c = false.
Proof.
  intros H. destruct (amount_char_cases c H) as [D|[->| ->]];
    [apply digit_not_space; exact D | reflexivity | reflexivity].
Qed.

(** ** Stripping leaves a string without blanks alone *)

Lemma lstrip_head (c : ascii) (s : string) :
  is_space c = false -> lstrip (String c s) = String c s.
Proof. intros H; simpl; rewrite H; reflexivity. Qed.

Lemma rstrip_no_space (s : string) :
  all_chars (fun c => negb (is_space c)) s = true -> rstrip s = s.
Proof.
  induction s as [|c s IH]; simpl; [reflexivity|].
  intros H. apply andb_prop in H as [Hc Hs]. rewrite (IH Hs).
  apply negb_true_iff in Hc. rewrite Hc. destruct s; reflexivity.
Qed.

Lemma strip_no_space (s : string) :
  all_chars (fun c => negb (is_space c)) s = true -> strip s = s.
Proof.
  intros H. unfold strip.
  destruct s as [|c s]; [reflexivity|].
  pose proof H as H'. simpl in H'. apply andb_prop in H' as [Hc _].
  apply negb_true_iff in Hc. rewrite (lstrip_head _ _ Hc). apply rstrip_no_space; exact H.
Qed.

Lemma float_rstrip_no_space (s : string) :
  all_chars (fun c => negb (float_is_space c)) s = true -> float_rstrip s = s.
Proof.
  induction s as [|c s IH]; simpl; [reflexivity|].
  intros H. apply andb_prop in H as [Hc Hs]. rewrite (IH Hs).
  apply negb_true_iff in Hc. rewrite Hc. destruct s; reflexivity.
Qed.

Lemma all_chars_impl (p q : ascii -> bool) (s : string) :
  (forall c, p c = true -> q c = true) -> all_chars p s = true -> all_chars q s = true.
Proof.
  intros Hpq. induction s as [|c s IH]; simpl; [reflexivity|].
  intros H. apply andb_prop in H as [Hc Hs]. rewrite (Hpq c Hc), (IH Hs). reflexivity.
Qed.

(** ** Removing the commas *)

Lemma plain_not_underscore (c : ascii) : plain_char c = true -> Ascii.eqb c "_" = false.
Proof.
  intros H. destruct (plain_char_cases c H) as [D| ->]; [|reflexivity].
  apply digit_differs; [exact D | reflexivity].
Qed.

Lemma plain_not_space (c : ascii) : plain_char c = true -> is_space c = false.
Proof.
  intros H. destruct (plain_char_cases c H) as [D| ->];
    [apply digit_not_space; exact D | reflexivity].
Qed.

Lemma plain_not_float_space (c : ascii) : plain_char c = true -> float_is_space c = false.
Proof.
  intros H. destruct (plain_char_cases c H) as [D| ->];
    [apply digit_not_float_space; exact D | reflexivity].
Qed.

Lemma remove_char_plain (s : string) :
  all_chars amount_char s = true -> all_chars plain_char (remove_char "," s) = true.
Proof.
  induction s as [|c s IH]; simpl; [reflexivity|].
  intros H. apply andb_prop in H as [Hc Hs].
  destruct (Ascii.eqb_spec c ",") as [->|Hne]; [apply IH; exact Hs|].
  simpl. rewrite (IH Hs), andb_true_r. unfold plain_char.
  destruct (amount_char_cases c Hc) as [D|[->| ->]];
    [rewrite D; reflexivity | contradiction | reflexivity].
Qed.

Lemma remove_char_count (p : ascii -> bool) (s : string) :
  p ","%char = false -> count_chars p (remove_char "," s) = count_chars p s.
Proof.
  intros Hp. induction s as [|c s IH]; simpl; [reflexivity|].
  destruct (Ascii.eqb_spec c ",") as [->|Hne]; simpl; rewrite IH;
    [rewrite Hp|]; reflexivity.
Qed.

Lemma remove_char_digits_number (s : string) (acc : Z) :
  digits_number acc (remove_char "," s) = digits_number acc s.
Proof.
  revert acc; induction s as [|c s IH]; intros acc; simpl; [reflexivity|].
  destruct (Ascii.eqb_spec c ",") as [->|Hne]; simpl.
  - apply IH.
  - destruct (is_digit c); apply IH.
Qed.

Lemma remove_char_digits_after_point (s : string) :
  digits_after_point (remove_char "," s) = digits_after_point s.
Proof.
  induction s as [|c s IH]; simpl; [reflexivity|].
  destruct (Ascii.eqb_spec c ",") as [->|Hne]; simpl; [exact IH|].
  destruct (Ascii.eqb c "."); [apply remove_char_count; reflexivity | exact IH].
Qed.

(** ** Reading a plain decimal *)

Lemma drop_underscores_plain (s : string) (prev : ascii) :
  Ascii.eqb prev "_" = false -> all_chars plain_char s = true ->
  drop_underscores prev s = Some s.
Proof.
  revert prev; induction s as [|c s IH]; intros prev Hprev; simpl.
  - rewrite Hprev; reflexivity.
  - intros H. apply andb_prop in H as [Hc Hs].
    rewrite (plain_not_underscore c Hc), Hprev. simpl.
    rewrite (IH c (plain_not_underscore c Hc) Hs). reflexivity.
Qed.

Lemma scan_digits_all (s : string) (acc : Z) (count : nat) :
  all_chars is_digit s = true ->
  scan_digits acc count s = (digits_number acc s, count + String.length s, EmptyString).
Proof.
  revert acc count; induction s as [|c s IH]; intros acc count; simpl.
  - intros _. rewrite Nat.add_0_r. reflexivity.
  - intros H. apply andb_prop in H as [Hc Hs]. rewrite Hc, (IH _ _ Hs).
    f_equal. f_equal. lia.
Qed.

Lemma count_digits_all (s : string) :
  all_chars is_digit s = true -> count_chars is_digit s = String.length s.
Proof.
  induction s as [|c s IH]; simpl; [reflexivity|].
  intros H. apply andb_prop in H as [Hc Hs]. rewrite Hc, (IH Hs). reflexivity.
Qed.

Lemma plain_without_point (s : string) :
  all_chars plain_char s = true -> count_chars (Ascii.eqb ".") s = 0 ->
  all_chars is_digit s = true.
Proof.
  induction s as [|c s IH]; cbn [all_chars count_chars]; [reflexivity|].
  intros H Hn. apply andb_prop in H as [Hc Hs].
  destruct (plain_char_cases c Hc) as [D| ->];
    [|rewrite Ascii.eqb_refl in Hn; lia].
  rewrite D. cbn [andb]. apply IH; [exact Hs|].
  destruct (Ascii.eqb "." c); [lia | exact Hn].
Qed.

(** The two scans of [parse_decimal] on digits with at most one point:
    they read every digit, count those after the point and reach the end
    of the string. *)
Lemma scan_decimal (s : string) (acc : Z) (count : nat) :
  all_chars plain_char s = true -> count_chars (Ascii.eqb ".") s <= 1 ->
  exists m1 n1 r1 n2,
    scan_digits acc count s = (m1, n1, r1)
    /\ match r1 with
       | String "." r => scan_digits m1 0 r
       | _ => (m1, 0, r1)
       end = (digits_number acc s, n2, EmptyString)
    /\ n2 = digits_after_point s
    /\ n1 + n2 = count + count_chars is_digit s.
Proof.
  revert acc count; induction s as [|c s IH]; intros acc count;
    cbn [all_chars count_chars scan_digits digits_number digits_after_point].
  - intros _ _. exists acc, count, EmptyString, 0. repeat split; lia.
  - intros H Hn. apply andb_prop in H as [Hc Hs].
    destruct (plain_char_cases c Hc) as [D| ->].
    + rewrite D. rewrite (digit_differs c "." D eq_refl).
      assert (Hn' : count_chars (Ascii.eqb ".") s <= 1)
        by (destruct (Ascii.eqb "." c); lia).
      destruct (IH (10 * acc + digit_value c)%Z (S count) Hs Hn')
        as (m1 & n1 & r1 & n2 & E1 & E2 & E3 & E4).
      exists m1, n1, r1, n2. repeat split; auto. lia.
    + rewrite Ascii.eqb_refl in *.
      assert (Hd : all_chars is_digit s = true)
        by (apply plain_without_point; [exact Hs | lia]).
      exists acc, count, (String "." s), (String.length s).
      change (is_digit ".") with false. cbn iota.
      rewrite (scan_digits_all s acc 0 Hd), (count_digits_all s Hd).
      repeat split; lia.
Qed.

Lemma parse_decimal_plain (s : string) :
  all_chars plain_char s = true ->
  1 <= count_chars is_digit s ->
  count_chars (Ascii.eqb ".") s <= 1 ->
  parse_decimal s = Some (digits_number 0 s, (- Z.of_nat (digits_after_point s))%Z).
Proof.
  intros Hp Hd Hn. unfold parse_decimal.
  destruct (scan_decimal s 0 0 Hp Hn) as (m1 & n1 & r1 & n2 & E1 & E2 & E3 & E4).
  rewrite E1, E2.
  destruct (Nat.eqb_spec (n1 + n2) 0) as [E|_]; [lia|].
  rewrite E3. reflexivity.
Qed.

Lemma lower_plain (c : ascii) : plain_char c = true -> lower c = c.
Proof.
  intros H. destruct (plain_char_cases c H) as [D| ->];
    [apply digit_lower; exact D | reflexivity].
Qed.

Lemma plain_differs (c d : ascii) :
  plain_char c = true -> plain_char d = false -> Ascii.eqb c d = false.
Proof.
  intros Hc Hd. destruct (Ascii.eqb_spec c d) as [->|]; [congruence | reflexivity].
Qed.

(** A string that starts with a digit or a point is none of the names
    [float] knows. *)
Lemma not_a_name (c d : ascii) (s t : string) :
  plain_char c = true -> plain_char d = false ->
  String.eqb (lowercase (String c s)) (String d t) = false.
Proof.
  intros Hc Hd. cbn [lowercase String.eqb].
  rewrite (lower_plain c Hc), (plain_differs c d Hc Hd). reflexivity.
Qed.

Lemma has_digit_nonempty (s : string) :
  1 <= count_chars is_digit s -> exists c s', s = String c s'.
Proof. destruct s as [|c s']; simpl; [lia | intros _; exists c, s'; reflexivity]. Qed.

(** [float] on digits with at most one point: the nearest binary64 to the
    number written. *)
Lemma float_plain (s : string) :
  all_chars plain_char s = true ->
  1 <= count_chars is_digit s ->
  count_chars (Ascii.eqb ".") s <= 1 ->
  float s = Some (binary64 false (scaled (digits_number 0 s)
                                         (- Z.of_nat (digits_after_point s)))).
Proof.
  intros Hp Hd Hn.
  pose proof (parse_decimal_plain s Hp Hd Hn) as Hparse.
  pose proof (drop_underscores_plain s zero eq_refl Hp) as Hund.
  assert (Hr : float_rstrip s = s).
  { apply float_rstrip_no_space. revert Hp. apply all_chars_impl.
    intros c Hc. rewrite (plain_not_float_space c Hc). reflexivity. }
  destruct (has_digit_nonempty s Hd) as (c & s' & ->).
  pose proof Hp as Hc. cbn [all_chars] in Hc. apply andb_prop in Hc as [Hc _].
  unfold float. cbn [float_lstrip]. rewrite (plain_not_float_space c Hc), Hr, Hund.
  unfold take_sign.
  rewrite (plain_differs c "-" Hc eq_refl), (plain_differs c "+" Hc eq_refl).
  rewrite (not_a_name c "i" s' "nf" Hc eq_refl),
          (not_a_name c "i" s' "nfinity" Hc eq_refl),
          (not_a_name c "n" s' "an" Hc eq_refl).
  cbn [orb].
  rewrite Hparse. reflexivity.
Qed.

Lemma scaled_amount (m : Z) (k : nat) :
  scaled m (- Z.of_nat k) = (m # Z.to_pos (10 ^ Z.of_nat k))%Q.
Proof.
  unfold scaled. destruct k as [|k].
  - cbn. rewrite Z.mul_1_r. reflexivity.
  - destruct (Z.leb_spec 0 (- Z.of_nat (S k))) as [H|_]; [lia|].
    rewrite Z.opp_involutive. reflexivity.
Qed.

Lemma binary64_not_nan (neg : bool) (q : Q) : binary64 neg q <> FNaN.
Proof.
  unfold binary64.
  destruct (Qnum q =? 0)%Z; [discriminate|].
  match goal with |- context [Z.max ?a ?b] => generalize (Z.max a b) end; intros p.
  destruct (0 <=? p)%Z; [|discriminate].
  match goal with |- context [(?a <=? ?b)%Z] => destruct (a <=? b)%Z end; discriminate.
Qed.

(** On an amount the helper gives the nearest binary64 to the number the
    amount denotes. *)
Lemma clean_and_convert_num_amount (s : string) :
  is_amount s = true ->
  clean_and_convert_num (Some s) = binary64 false (amount_value s).
Proof.
  unfold is_amount. intros H.
  apply andb_prop in H as [H Hn]; apply andb_prop in H as [Ha Hd].
  apply Nat.leb_le in Hn, Hd.
  assert (Hs : strip s = s).
  { apply strip_no_space. revert Ha. apply all_chars_impl.
    intros c Hc. rewrite (is_space_amount c Hc). reflexivity. }
  pose proof (remove_char_plain s Ha) as Hp.
  assert (Hs' : strip (remove_char "," s) = remove_char "," s).
  { apply strip_no_space. revert Hp. apply all_chars_impl.
    intros c Hc. rewrite (plain_not_space c Hc). reflexivity. }
  unfold clean_and_convert_num. rewrite Hs, Hs'.
  destruct (has_digit_nonempty s Hd) as (c & s' & E).
  replace (String.eqb s EmptyString) with false by (rewrite E; reflexivity).
  rewrite float_plain.
  - rewrite remove_char_digits_number, remove_char_digits_after_point, scaled_amount.
    reflexivity.
  - exact Hp.
  - rewrite remove_char_count; [exact Hd | reflexivity].
  - rewrite remove_char_count; [exact Hn | reflexivity].
Qed.

(** C9. The helper maps the amount "1,000.00" to 1000.0 and maps the empty
    string, a blank string and a missing value to NaN, which is not equal
    to zero.  Every string of digits, commas and at most one decimal point
    with at least one digit is mapped to a number, never to NaN: the
    nearest binary64 to the number its digits and point denote, the commas
    being dropped (an infinity when that number is beyond the binary64
    range). *)
Theorem C9_numeric_normalisation :
  clean_and_convert_num (Some "1,000.00") = FNum false (1000 # 1)
  /\ clean_and_convert_num (Some EmptyString) = FNaN
  /\ clean_and_convert_num None = FNaN
  /\ (forall s, strip s = EmptyString -> clean_and_convert_num (Some s) = FNaN)
  /\ float_eq FNaN (FNum false (0 # 1)) = false
  /\ (forall s, is_amount s = true ->
        clean_and_convert_num (Some s) = binary64 false (amount_value s)
        /\ clean_and_convert_num (Some s) <> FNaN).
Proof.
  split; [vm_compute; reflexivity|].
  split; [reflexivity|]. split; [reflexivity|]. split.
  - intros s H. unfold clean_and_convert_num. rewrite H. reflexivity.
  - split; [reflexivity|]. intros s H.
    rewrite (clean_and_convert_num_amount s H).
    split; [reflexivity | apply binary64_not_nan].
Qed.

(** An amount grouped the Indian way. *)
Lemma C9_witness :
  clean_and_convert_num (Some "12,34,567.25") = binary64 false (amount_value "12,34,567.25")
  /\ clean_and_convert_num (Some "12,34,567.25") <> FNaN.
Proof.
  apply (proj2 (proj2 (proj2 (proj2 (proj2 C9_numeric_normalisation))))).
  reflexivity.
Defined.

End Amounts.

(* ================================================================== *)
(** * Further properties: the text helpers of agent.py *)

Section TextHelpers.
Import Python Pandas Agent Observations Samples.

Lemma append_empty_r (s : string) : s ++ EmptyString = s.
Proof. induction s as [|c s IH]; simpl; [reflexivity | rewrite IH; reflexivity]. Qed.

Lemma append_assoc (s t u : string) : (s ++ t) ++ u = s ++ t ++ u.
Proof. induction s as [|c s IH]; simpl; [reflexivity | rewrite IH; reflexivity]. Qed.

Lemma extract_pages_text (pages : list page_outcome) (text : string) :
  extract_pages pages text
  = if existsb page_raises pages then None
    else Some (text ++ fold_right String.append EmptyString (map page_text pages)).
Proof.
  revert text; induction pages as [|[e|[[|c t]|]] pages IH]; intros text;
    cbn [extract_pages existsb page_raises map fold_right page_text truthy orb].
  - rewrite append_empty_r. reflexivity.
  - reflexivity.
  - apply IH.
  - rewrite IH. destruct (existsb page_raises pages); [reflexivity|].
    rewrite !append_assoc. reflexivity.
  - apply IH.
Qed.

(** X1. The extraction gives nothing exactly when opening the document or
    reading one of its pages raised; otherwise it gives the texts of the
    pages in page order, each followed by a newline, pages without text
    adding nothing. *)
Theorem X1_extracted_text (pdf : pdf_outcome) :
  extract_text_from_pdf pdf
  = match pdf with
    | OpenRaised _ => None
    | Opened pages =>
        if existsb page_raises pages then None
        else Some (fold_right String.append EmptyString (map page_text pages))
    end.
Proof.
  destruct pdf as [e|pages]; [reflexivity|].
  unfold extract_text_from_pdf. rewrite extract_pages_text. reflexivity.
Qed.

(** ** Fence markers *)

Lemma prefix_cons (a b : ascii) (p s : string) :
  String.prefix (String a p) (String b s) = Ascii.eqb a b && String.prefix p s.
Proof.
  cbn [String.prefix]. destruct (ascii_dec a b) as [->|H].
  - rewrite Ascii.eqb_refl. reflexivity.
  - apply Ascii.eqb_neq in H. rewrite H. reflexivity.
Qed.

Lemma prefix_empty (s : string) : String.prefix EmptyString s = true.
Proof. destruct s; reflexivity. Qed.

Lemma prefix_trans (p q s : string) :
  String.prefix p q = true -> String.prefix q s = true -> String.prefix p s = true.
Proof.
  revert q s; induction p as [|a p IH]; intros q s; [intros; apply prefix_empty|].
  destruct q as [|b q]; [discriminate|]. destruct s as [|c s]; [discriminate|].
  rewrite !prefix_cons. intros H1 H2.
  apply andb_prop in H1 as [E1 H1]. apply andb_prop in H2 as [E2 H2].
  apply Ascii.eqb_eq in E1, E2. subst. rewrite Ascii.eqb_refl. simpl. eauto.
Qed.

(** A match of either alternative starts with a fence. *)
Lemma fence_python_fence (s : string) :
  String.prefix fence_python s = true -> String.prefix fence s = true.
Proof. apply prefix_trans. reflexivity. Qed.

(** [remove_fences] at the start of a scan, by the three cases of its
    body. *)
Lemma remove_fences_cases (c : ascii) (s : string) :
  (String.prefix fence (String c s) = true
   /\ exists k, remove_fences 0 (String c s) = remove_fences k s)
  \/ (String.prefix fence (String c s) = false
      /\ remove_fences 0 (String c s) = String c (remove_fences 0 s)).
Proof.
  cbn [remove_fences].
  destruct (String.prefix fence_python (String c s)) eqn:P.
  - left. split; [apply fence_python_fence; exact P | exists 8; reflexivity].
  - destruct (String.prefix fence (String c s)) eqn:F.
    + left. split; [reflexivity | exists 2; reflexivity].
    + right. split; reflexivity.
Qed.

(** What is kept starts with a backtick only if the text did, and with two
    only if the text did: nothing kept stands right before a match. *)
Lemma kept_tick (s : string) :
  String.prefix tick (remove_fences 0 s) = true -> String.prefix tick s = true.
Proof.
  destruct s as [|c s]; [discriminate|].
  destruct (remove_fences_cases c s) as [[F _]|[_ ->]].
  - intros _. revert F. apply prefix_trans. reflexivity.
  - unfold tick. rewrite !prefix_cons, !prefix_empty. auto.
Qed.

Lemma kept_ticks (s : string) :
  String.prefix ticks (remove_fences 0 s) = true -> String.prefix ticks s = true.
Proof.
  destruct s as [|c s]; [discriminate|].
  destruct (remove_fences_cases c s) as [[F _]|[_ ->]].
  - intros _. revert F. apply prefix_trans. reflexivity.
  - unfold ticks. rewrite !prefix_cons. intros H.
    apply andb_prop in H as [E H]. rewrite E. simpl.
    apply kept_tick in H. exact H.
Qed.

Lemma remove_fences_no_fence (s : string) (k : nat) :
  has_fence (remove_fences k s) = false.
Proof.
  revert k; induction s as [|c s IH]; intros k; [reflexivity|].
  destruct k as [|k]; [|apply IH].
  destruct (remove_fences_cases c s) as [[_ [k ->]]|[F ->]]; [apply IH|].
  cbn [has_fence]. rewrite IH, orb_false_r.
  destruct (String.prefix fence (String c (remove_fences 0 s))) eqn:G; [|reflexivity].
  unfold fence in *. rewrite prefix_cons in G, F.
  apply andb_prop in G as [E G]. rewrite E in F. simpl in F.
  apply kept_ticks in G. unfold ticks in G. congruence.
Qed.

(** ** Stripping *)

Lemma has_fence_tail (c : ascii) (s : string) :
  has_fence (String c s) = false -> has_fence s = false.
Proof. cbn [has_fence]. intros H. apply orb_false_elim in H as [_ H]. exact H. Qed.

Lemma lstrip_no_fence (s : string) :
  has_fence s = false -> has_fence (lstrip s) = false.
Proof.
  induction s as [|c s IH]; [reflexivity|]. intros H. cbn [lstrip].
  destruct (is_space c); [apply IH; eapply has_fence_tail; exact H | exact H].
Qed.

Lemma prefix_rstrip (p s : string) :
  String.prefix p (rstrip s) = true -> String.prefix p s = true.
Proof.
  revert p; induction s as [|c s IH]; intros p; [auto|].
  destruct p as [|a p]; [intros; apply prefix_empty|].
  cbn [rstrip]. destruct (rstrip s) as [|d r] eqn:R.
  - destruct (is_space c); [discriminate|].
    rewrite !prefix_cons. intros H. apply andb_prop in H as [E H]. rewrite E. simpl.
    destruct p; [apply prefix_empty | discriminate H].
  - rewrite !prefix_cons. intros H. apply andb_prop in H as [E H]. rewrite E. simpl.
    apply IH. exact H.
Qed.

Lemma rstrip_cons (c : ascii) (s : string) :
  rstrip (String c s)
  = match rstrip s with
    | EmptyString => if is_space c then EmptyString else String c EmptyString
    | r => String c r
    end.
Proof. reflexivity. Qed.

Lemma rstrip_no_fence (s : string) :
  has_fence s = false -> has_fence (rstrip s) = false.
Proof.
  induction s as [|c s IH]; [reflexivity|]. intros H.
  pose proof (has_fence_tail _ _ H) as Ht. specialize (IH Ht).
  destruct (has_fence (rstrip (String c s))) eqn:G; [|reflexivity].
  assert (P : String.prefix fence (rstrip (String c s)) = true).
  { revert G. rewrite rstrip_cons. destruct (rstrip s) as [|d r].
    - destruct (is_space c); [discriminate|]. cbn [has_fence]. rewrite orb_false_r. auto.
    - intros G. change (String.prefix fence (String c (String d r))
                        || has_fence (String d r) = true) in G.
      rewrite IH, orb_false_r in G. exact G. }
  apply prefix_rstrip in P. cbn [has_fence] in H. rewrite P in H. discriminate H.
Qed.

Lemma rstrip_idempotent (s : string) : rstrip (rstrip s) = rstrip s.
Proof.
  induction s as [|c s IH]; [reflexivity|].
  rewrite (rstrip_cons c s). destruct (rstrip s) as [|d r] eqn:R.
  - destruct (is_space c) eqn:Sp; [reflexivity|]. cbn [rstrip]. rewrite Sp. reflexivity.
  - rewrite rstrip_cons, IH. reflexivity.
Qed.

(** What [lstrip] leaves is empty or starts with a character that is not
    a blank. *)
Lemma lstrip_head_not_space (s : string) :
  match lstrip s with
  | EmptyString => True
  | String c _ => is_space c = false
  end.
Proof.
  induction s as [|c s IH]; [exact I|]. cbn [lstrip].
  destruct (is_space c) eqn:Sp; [exact IH | exact Sp].
Qed.

Lemma rstrip_keeps_head (c : ascii) (s : string) :
  is_space c = false -> exists r, rstrip (String c s) = String c r.
Proof.
  intros Sp. rewrite rstrip_cons. destruct (rstrip s) as [|d r].
  - rewrite Sp. eexists; reflexivity.
  - eexists; reflexivity.
Qed.

Lemma strip_idempotent (s : string) : strip (strip s) = strip s.
Proof.
  unfold strip. pose proof (lstrip_head_not_space s) as H.
  destruct (lstrip s) as [|c t]; [reflexivity|].
  destruct (rstrip_keeps_head c t H) as [r E]. rewrite E.
  cbn [lstrip]. rewrite H, <- E. apply rstrip_idempotent.
Qed.

Lemma strip_no_fence (s : string) :
  has_fence s = false -> has_fence (strip s) = false.
Proof. intros H. unfold strip. apply rstrip_no_fence, lstrip_no_fence, H. Qed.

(** X2. The code [generate_parser_code] returns holds no fence marker
    (three backticks in a row), whatever the provider answered: removing
    the markers never brings the backticks around them together into a new
    one. *)
Theorem X2_no_fence_left (response : provider_outcome) (code : string) :
  generate_parser_code response = Some code -> has_fence code = false.
Proof.
  destruct response as [e|text]; [discriminate|].
  cbn [generate_parser_code]. intros E. injection E as <-.
  apply strip_no_fence, remove_fences_no_fence.
Qed.

(** Backticks on both sides of a marker. *)
Lemma X2_witness :
  generate_parser_code (ProviderText "``````python` x = 1 ```") = Some "` x = 1"
  /\ has_fence "` x = 1" = false.
Proof.
  split; [reflexivity|].
  apply (X2_no_fence_left (ProviderText "``````python` x = 1 ```")). reflexivity.
Defined.

(** X3. The code [generate_parser_code] returns has no blank at either
    end: stripping it again changes nothing. *)
Theorem X3_code_is_stripped (response : provider_outcome) (code : string) :
  generate_parser_code response = Some code ->
  strip code = code /\ lstrip code = code /\ rstrip code = code.
Proof.
  destruct response as [e|text]; [discriminate|].
  cbn [generate_parser_code]. intros E. injection E as <-.
  split; [apply strip_idempotent|].
  unfold strip. pose proof (lstrip_head_not_space (remove_fences 0 text)) as H.
  destruct (lstrip (remove_fences 0 text)) as [|c t]; [split; reflexivity|].
  destruct (rstrip_keeps_head c t H) as [r E]. split.
  - rewrite E. cbn [lstrip]. rewrite H. reflexivity.
  - apply rstrip_idempotent.
Qed.

Lemma X3_witness :
  strip "def parse(pdf_path): pass" = "def parse(pdf_path): pass"
  /\ lstrip "def parse(pdf_path): pass" = "def parse(pdf_path): pass"
  /\ rstrip "def parse(pdf_path): pass" = "def parse(pdf_path): pass".
Proof.
  apply (X3_code_is_stripped
           (ProviderText "```python
def parse(pdf_path): pass
```")).
  reflexivity.
Defined.

End TextHelpers.

(* ================================================================== *)
(** * Further properties: the comparison of test_parser *)

Section Comparison.
Import Python Pandas Agent Observations Samples.

Lemma getitem_of_contains (df : DataFrame) (col : string) :
  contains df col = true -> exists x, getitem df col = Some x.
Proof.
  intros H. apply contains_In in H. unfold column_names in H.
  apply in_map_iff in H as ([c s] & E & Hin). simpl in E. subst c.
  unfold getitem.
  destruct (filter (fun c => String.eqb (fst c) col) (columns df)) as [|x [|y l]] eqn:F.
  - exfalso. assert (Hf : In (col, s) []).
    { rewrite <- F. apply filter_In. split; [exact Hin | apply String.eqb_refl]. }
    destruct Hf.
  - eexists; reflexivity.
  - eexists; reflexivity.
Qed.

(** The loop over the expected columns never raises: a label it looks up
    is in the result (it has just been tested) and in the expected table
    (it comes from there). *)
Lemma check_columns_returns (result expected : DataFrame) (cols : list string) :
  (forall c, In c cols -> contains expected c = true) ->
  exists d, check_columns result expected cols = Returns d.
Proof.
  induction cols as [|col rest IH]; intros H; cbn [check_columns].
  - eexists; reflexivity.
  - destruct (contains result col) eqn:C; cbn [negb]; [|eexists; reflexivity].
    destruct (getitem_of_contains _ _ C) as [r ->].
    destruct (getitem_of_contains expected col (H col (or_introl eq_refl))) as [e ->].
    destruct (item_equals r e); [|eexists; reflexivity].
    apply IH. intros c Hc. apply H. right; exact Hc.
Qed.

Lemma find_difference_returns (result expected : DataFrame) :
  exists d, find_difference result expected = Returns d.
Proof.
  unfold find_difference.
  destruct (negb _); [eexists; reflexivity|].
  apply check_columns_returns. intros c Hc. apply contains_In. exact Hc.
Qed.

(** X4. Once the candidate has returned a table and the reference has been
    read, the comparison never raises: the report is the passing message
    or the failing prefix followed by the difference found; the
    error-report form does not occur. *)
Theorem X4_comparison_never_raises (result reference : DataFrame) :
  verify result reference = Verdict true "Parser test passed!"
  \/ exists d,
       find_difference (reset_index result) (reset_index reference) = Returns d
       /\ verify result reference = Verdict false ("Parser test failed. " ++ diff_text d).
Proof.
  rewrite verify_unfold. unfold compare_frames.
  destruct (DataFrame_equals _ _); [left; reflexivity|].
  destruct (find_difference_returns (reset_index result) (reset_index reference)) as [d E].
  right. exists d. rewrite E. split; reflexivity.
Qed.

(** ** When the test passes *)

Lemma list_eqb_Forall2 {A : Type} (eqb : A -> A -> bool) (l1 l2 : list A) :
  list_eqb eqb l1 l2 = true <-> Forall2 (fun x y => eqb x y = true) l1 l2.
Proof.
  revert l2; induction l1 as [|x l1 IH]; intros [|y l2]; simpl; split; intros H;
    try discriminate; try constructor; try (inversion H; fail).
  - apply andb_prop in H as [H _]; exact H.
  - apply andb_prop in H as [_ H]; apply IH; exact H.
  - inversion H; subst. apply andb_true_intro; split; [assumption | apply IH; assumption].
Qed.

Lemma success_means_equal (load : load_outcome) (csv : read_outcome) (message : string) :
  test_parser load csv = Verdict true message ->
  message = "Parser test passed!"
  /\ exists v reference,
       load = Loaded (Some (Returned v))
       /\ csv = ReadOk reference
       /\ accepted v reference.
Proof.
  unfold test_parser, test_parser_body.
  destruct load as [[e|st| |e]|[[[e|st| |e]|v]|]]; cbn; try discriminate.
  destruct csv as [e|reference]; cbn; [discriminate|].
  destruct v as [result|ty|[x|[x| |diff] asserted]]; cbn; try discriminate.
  - unfold compare_frames.
    destruct (DataFrame_equals (reset_index result) (reset_index reference)) eqn:E.
    + cbn. intros H. injection H as <-. split; [reflexivity|].
      exists (Frame result), reference. repeat split.
      * apply DataFrame_equals_shape in E. rewrite !shape_reset_index in E. exact E.
      * apply DataFrame_equals_names in E. exact E.
      * unfold DataFrame_equals in E. apply andb_prop in E as [_ E].
        apply list_eqb_Forall2 in E. exact E.
    + destruct (find_difference_returns (reset_index result) (reset_index reference))
        as [d ->]. cbn. discriminate.
  - destruct x; cbn; discriminate.
  - destruct x; cbn; discriminate.
  - intros H. injection H as <-. split; [reflexivity|].
    eexists (Foreign _), reference. repeat split. exists asserted. reflexivity.
Qed.

(** X5. [test_parser] returns success only with the message
    "Parser test passed!", and only when the module loaded, [parse]
    returned, the reference was read, and what [parse] returned is either
    a table with the shape of the reference, its column labels in the same
    order and, column by column, the same declared element type and
    equivalent values, or an object of another type whose own [equals]
    answered true: the program makes no test of the type of the result. *)
Theorem X5_success_means_equal (load : load_outcome) (csv : read_outcome) (message : string) :
  test_parser load csv = Verdict true message ->
  message = "Parser test passed!"
  /\ exists v reference,
       load = Loaded (Some (Returned v))
       /\ csv = ReadOk reference
       /\ match v with
          | Frame result =>
              shape result = shape reference
              /\ column_names result = column_names reference
              /\ Forall2 (fun s t => array_equals s t = true)
                         (map snd (columns result)) (map snd (columns reference))
          | NoResetIndex _ => False
          | Foreign reset => exists asserted, reset = ResetReturns ComparesEqual asserted
          end.
Proof. apply success_means_equal. Qed.

(** The reference itself, and an object that approves of itself. *)
Lemma X5_witness :
  ("Parser test passed!" = "Parser test passed!"
   /\ exists v reference,
        Loaded (Some (Returned (Frame three_columns))) = Loaded (Some (Returned v))
        /\ ReadOk three_columns = ReadOk reference
        /\ match v with
           | Frame result =>
               shape result = shape reference
               /\ column_names result = column_names reference
               /\ Forall2 (fun s t => array_equals s t = true)
                          (map snd (columns result)) (map snd (columns reference))
           | NoResetIndex _ => False
           | Foreign reset => exists asserted, reset = ResetReturns ComparesEqual asserted
           end)
  /\ test_parser (Loaded (Some (Returned self_approving))) (ReadOk three_columns)
     = Verdict true "Parser test passed!".
Proof.
  split; [|reflexivity].
  apply (X5_success_means_equal (Loaded (Some (Returned (Frame three_columns))))
                                (ReadOk three_columns)).
  reflexivity.
Defined.

(** X6. A table passes against a table with the same columns and as many
    rows, whatever the row labels of either and whatever the cells hold:
    missing values (NaN, None) match themselves. *)
Theorem X6_same_columns_pass (cols : list (string * Series)) (labels labels' : list Z) :
  length labels = length labels' ->
  verify (mk_frame cols labels) (mk_frame cols labels') = Verdict true "Parser test passed!".
Proof. intros H. apply verify_identical; [reflexivity | exact H]. Qed.

Lemma X6_witness :
  verify (mk_frame [("Balance", mk_series float64 [CFloat FNaN; CNone])] [7%Z; 3%Z])
         (mk_frame [("Balance", mk_series float64 [CFloat FNaN; CNone])] [0%Z; 1%Z])
  = Verdict true "Parser test passed!".
Proof. apply X6_same_columns_pass. reflexivity. Defined.

(** ** The first difference *)

Lemma first_difference
    (result expected : DataFrame) (cols : list string) (d : difference) :
  check_columns result expected cols = Returns d ->
  match d with
  | NoDifference =>
      forall c, In c cols -> column_agrees result expected c = true
  | MissingColumn col =>
      exists before after,
        cols = (before ++ col :: after)%list
        /\ (forall c, In c before -> column_agrees result expected c = true)
        /\ contains result col = false
  | ColumnMismatch col =>
      exists before after,
        cols = (before ++ col :: after)%list
        /\ (forall c, In c before -> column_agrees result expected c = true)
        /\ contains result col = true
        /\ column_agrees result expected col = false
  | ShapeMismatch _ _ => False
  end.
Proof.
  revert d; induction cols as [|col rest IH]; intros d; cbn [check_columns].
  - intros E. injection E as <-. intros c [].
  - destruct (contains result col) eqn:C; cbn [negb].
    + destruct (getitem result col) as [r|] eqn:Gr;
        [|destruct (getitem_of_contains _ _ C) as [x Ex]; congruence].
      destruct (getitem expected col) as [e|] eqn:Ge; [|discriminate].
      destruct (item_equals r e) eqn:Eq.
      * intros E. specialize (IH d E).
        assert (Hcol : column_agrees result expected col = true)
          by (unfold column_agrees; rewrite Gr, Ge; exact Eq).
        destruct d as [|? ?|c'|c'].
        -- intros c [<-|Hc]; auto.
        -- exact IH.
        -- destruct IH as (before & after & -> & Hb & Hm).
           exists (col :: before), after. split; [reflexivity|]. split; [|exact Hm].
           intros c [<-|Hc]; auto.
        -- destruct IH as (before & after & -> & Hb & Hm).
           exists (col :: before), after. split; [reflexivity|]. split; [|exact Hm].
           intros c [<-|Hc]; auto.
      * intros E. injection E as <-. exists [], rest.
        split; [reflexivity|]. split; [intros c []|]. split; [exact C|].
        unfold column_agrees; rewrite Gr, Ge; exact Eq.
    + intros E. injection E as <-. exists [], rest.
      split; [reflexivity|]. split; [intros c []|exact C].
Qed.

(** X7. The column the loop names is the first expected column that is
    absent from the result or differs from the reference's: every expected
    column before it is in the result and agrees; a missing-column reason
    means the label is not in the result, a mismatch reason that it is
    there and differs; and with no difference every column agrees. *)
Theorem X7_first_difference
    (result expected : DataFrame) (cols : list string) (d : difference) :
  check_columns result expected cols = Returns d ->
  match d with
  | NoDifference =>
      forall c, In c cols -> column_agrees result expected c = true
  | MissingColumn col =>
      exists before after,
        cols = (before ++ col :: after)%list
        /\ (forall c, In c before -> column_agrees result expected c = true)
        /\ contains result col = false
  | ColumnMismatch col =>
      exists before after,
        cols = (before ++ col :: after)%list
        /\ (forall c, In c before -> column_agrees result expected c = true)
        /\ contains result col = true
        /\ column_agrees result expected col = false
  | ShapeMismatch _ _ => False
  end.
Proof. apply first_difference. Qed.

(** The sample with Memo in place of Description: Date agrees, Description
    is not there. *)
Lemma X7_witness :
  exists before after,
    column_names three_columns = (before ++ "Description" :: after)%list
    /\ (forall c, In c before ->
          column_agrees (reset_index renamed_column) (reset_index three_columns) c = true)
    /\ contains (reset_index renamed_column) "Description" = false.
Proof.
  apply (X7_first_difference (reset_index renamed_column) (reset_index three_columns)
           (column_names three_columns) (MissingColumn "Description")).
  reflexivity.
Defined.

(** ** What leaves test_parser *)





End Comparison.

(* ================================================================== *)
(** * Further properties: the harness and the agent *)

Section HarnessAndAgent.
Import Python Pandas Agent Observations Samples.

Lemma columns_pointwise (la lb : list (string * Series)) :
  map fst la = map fst lb ->
  (forall c s t, In (c, s) la -> In (c, t) lb -> array_equals s t = true) ->
  list_eqb array_equals (map snd la) (map snd lb) = true.
Proof.
  revert lb; induction la as [|[c s] la IH]; intros [|[c' t] lb]; simpl;
    try discriminate; [reflexivity|].
  intros E H. injection E as -> E.
  rewrite (H c' s t (or_introl eq_refl) (or_introl eq_refl)). simpl.
  apply IH; [exact E|]. intros c0 s0 t0 Hs Ht. apply (H c0); right; assumption.
Qed.

(** Tables with the same distinct labels in the same order, the same row
    labels and agreeing columns are equal. *)
Lemma all_agree_equal (a b : DataFrame) :
  column_names a = column_names b -> NoDup (column_names b) -> index a = index b ->
  (forall c, In c (column_names b) -> column_agrees a b c = true) ->
  DataFrame_equals a b = true.
Proof.
  intros En Hnd Ei Hall. unfold DataFrame_equals, Index_equals.
  rewrite (proj2 (list_eqb_string _ _) En), Ei.
  change (list_eqb Z.eqb (index b) (index b)) with (Index_equals Z.eqb (index b) (index b)).
  rewrite Index_equals_Z_refl. simpl.
  apply columns_pointwise; [exact En|].
  intros c s t Hs Ht.
  assert (Hc : In c (column_names b)).
  { unfold column_names. change c with (fst (c, t)). apply in_map; exact Ht. }
  specialize (Hall c Hc). unfold column_agrees in Hall.
  rewrite (getitem_unique a c s), (getitem_unique b c t) in Hall; auto.
  - simpl in Hall. apply andb_prop in Hall as [_ Hall]. exact Hall.
  - rewrite En; exact Hnd.
Qed.

(** X11. On a pair of tables that the harness of [test_parser.py] passes
    (the reference's labels being distinct), the agent's [test_parser]
    either passes too or blames one column of the reference by name: it
    cannot answer with a shape mismatch, a missing column or a reason
    without diagnostic. *)
Theorem X11_harness_pass_limits_agent (result reference : DataFrame) :
  NoDup (column_names reference) ->
  TestParser.test_parser true (Loaded (Some (Returned (Frame result)))) (ReadOk reference)
    = TestParser.TestPassed ->
  verify result reference = Verdict true "Parser test passed!"
  \/ exists col,
       In col (column_names reference)
       /\ verify result reference
          = Verdict false ("Parser test failed. " ++ diff_text (ColumnMismatch col)).
Proof.
  intros Hnd. unfold TestParser.test_parser, TestParser.load_parser. cbn [negb].
  destruct (Nat.eqb (fst (shape (reset_index result))) (fst (shape (reset_index reference)))
            && Nat.eqb (snd (shape (reset_index result)))
                       (snd (shape (reset_index reference)))) eqn:Hs;
    cbn [negb]; [|discriminate].
  destruct (list_eqb String.eqb (column_names (reset_index result))
                     (column_names (reset_index reference))) eqn:Hn;
    cbn [negb]; [|discriminate].
  intros _. apply list_eqb_string in Hn. rewrite !column_names_reset_index in Hn.
  rewrite verify_unfold. unfold compare_frames.
  destruct (DataFrame_equals (reset_index result) (reset_index reference)) eqn:E;
    [left; reflexivity|].
  right. unfold find_difference. rewrite Hs. cbn [negb].
  rewrite column_names_reset_index.
  destruct (check_columns_returns (reset_index result) (reset_index reference)
              (column_names reference)) as [d Hd].
  { intros c Hc. apply contains_In. exact Hc. }
  rewrite Hd. pose proof (first_difference _ _ _ _ Hd) as F.
  destruct d as [|? ?|col|col].
  - exfalso. rewrite all_agree_equal in E; [discriminate E| | | |].
    + rewrite !column_names_reset_index. exact Hn.
    + rewrite column_names_reset_index. exact Hnd.
    + apply andb_prop in Hs as [Hr _]. apply Nat.eqb_eq in Hr.
      rewrite !shape_reset_index in Hr. unfold shape in Hr. cbn [fst] in Hr.
      unfold reset_index. cbn [index]. rewrite Hr. reflexivity.
    + rewrite column_names_reset_index. exact F.
  - destruct F.
  - exfalso. destruct F as (before & after & Ec & _ & Hm).
    assert (Hin : contains (reset_index result) col = true).
    { apply contains_In. rewrite column_names_reset_index, Hn, Ec.
      apply in_or_app. right. left. reflexivity. }
    congruence.
  - destruct F as (before & after & Ec & _).
    exists col. split; [|reflexivity].
    rewrite Ec. apply in_or_app. right. left. reflexivity.
Qed.

(** The pair of C4: the harness passes it, the agent blames Balance. *)
Lemma X11_witness :
  verify typed_result typed_reference = Verdict true "Parser test passed!"
  \/ exists col,
       In col (column_names typed_reference)
       /\ verify typed_result typed_reference
          = Verdict false ("Parser test failed. " ++ diff_text (ColumnMismatch col)).
Proof.
  apply X11_harness_pass_limits_agent.
  - repeat constructor; simpl; intuition discriminate.
  - reflexivity.
Defined.

End HarnessAndAgent.

(* ================================================================== *)
(** * Further properties: the runs of main *)

Section MoreRuns.
Import Python Pandas Agent Observations Samples.

Variable env : environment.

Lemma file_after_app (before : option string) (l : list attempt_record) (a : attempt_record) :
  file_after before (l ++ [a])%list = left_by a (file_after before l).
Proof. unfold file_after. rewrite fold_left_app. reflexivity. Qed.

(** The file is as before, or holds the code of a turn that wrote it, or
    what a write that raised left of it. *)
Lemma file_after_cases (before : option string) (l : list attempt_record) :
  file_after before l = before
  \/ (exists a code,
        In a l /\ att_write a = Some Written /\ att_code a = Some code
        /\ file_after before l = Some code)
  \/ (exists a e kept,
        In a l /\ att_write a = Some (WriteRaised e kept)
        /\ file_after before l = Some kept).
Proof.
  induction l as [|a l IH] using rev_ind; [left; reflexivity|].
  rewrite file_after_app. unfold left_by.
  assert (Hlast : In a (l ++ [a])%list) by (apply in_or_app; right; left; reflexivity).
  destruct (att_write a) as [[|e|e kept]|] eqn:W.
  - destruct (att_code a) as [code|] eqn:C.
    + right; left. exists a, code. repeat split; auto.
    + destruct IH as [E|[(b & code & Hb & Wb & Cb & E)|(b & e & kept & Hb & Wb & E)]].
      * left; exact E.
      * right; left. exists b, code. split; [apply in_or_app; left; exact Hb | repeat split; auto].
      * right; right. exists b, e, kept. split; [apply in_or_app; left; exact Hb | repeat split; auto].
  - destruct IH as [E|[(b & code & Hb & Wb & Cb & E)|(b & e' & kept & Hb & Wb & E)]].
    + left; exact E.
    + right; left. exists b, code. split; [apply in_or_app; left; exact Hb | repeat split; auto].
    + right; right. exists b, e', kept. split; [apply in_or_app; left; exact Hb | repeat split; auto].
  - right; right. exists a, e, kept. repeat split; auto.
  - destruct IH as [E|[(b & code & Hb & Wb & Cb & E)|(b & e & kept & Hb & Wb & E)]].
    + left; exact E.
    + right; left. exists b, code. split; [apply in_or_app; left; exact Hb | repeat split; auto].
    + right; right. exists b, e, kept. split; [apply in_or_app; left; exact Hb | repeat split; auto].
Qed.

Lemma turns_In (todo : list nat) (a : attempt_record) :
  In a (turns env todo) -> exists k, In k todo /\ a = turn env k.
Proof.
  intros H. apply In_nth_error in H as (i & H).
  destruct (turns_nth env _ _ _ H) as (k & Hk & E).
  exists k. split; [eapply nth_error_In; exact Hk | exact E].
Qed.

(** Every attempt a run makes is one of the attempts 1, 2, 3 of its
    surroundings. *)
Lemma attempts_In (a : attempt_record) :
  In a (attempts (main env)) -> exists k, In k (seq 1 3) /\ a = turn env k.
Proof.
  destruct (main_cases env) as [(_ & _ & Hh & _) | (st & -> & _ & Hh & _)].
  - unfold attempts. rewrite Hh. intros [].
  - rewrite (attempts_of_loop env st Hh). apply turns_In.
Qed.

(** A turn that ends the run by a raise decides how the run ends. *)
Lemma main_ends_by (a : attempt_record) (x : raised) :
  In a (attempts (main env)) -> raise_of a = Some x ->
  ending_of (main env) = Unhandled x.
Proof.
  destruct (main_cases env) as [(_ & _ & Hh & _) | (st & -> & _ & Hh & _)].
  - unfold attempts. rewrite Hh. intros [].
  - rewrite (attempts_of_loop env st Hh). intros Hin E.
    rewrite loop_ending, (first_raise_In env _ _ _ Hin E). reflexivity.
Qed.

(** The code a turn wrote is what synthesis returned: not empty, without
    blanks at its ends, without fence markers. *)
Lemma written_is_clean (k : nat) (code : string) :
  att_write (turn env k) = Some Written -> att_code (turn env k) = Some code ->
  code <> EmptyString /\ strip code = code /\ has_fence code = false.
Proof.
  unfold turn.
  destruct (generate_parser_code (generate_content env k)) as [[|c s]|] eqn:G; cbn;
    try discriminate.
  intros _ E. injection E as <-.
  destruct (generate_content env k) as [e|text]; [discriminate|].
  cbn [generate_parser_code] in G. injection G as G. rewrite <- G.
  split; [rewrite G; discriminate|].
  split; [apply strip_idempotent | apply strip_no_fence, remove_fences_no_fence].
Qed.

(** X9. Whatever the provider answers, a run leaves the file at the
    artifact path as it was; or leaves in it code that one of its attempts
    generated and wrote: text that is not empty, has no blank at either
    end and holds no fence marker; or, when a write raised after the file
    was opened, leaves in it what that write left (nothing, when the text
    could not be encoded), and then the run ends by the error of that
    write. *)
Theorem X9_artifact_is_clean_code :
  artifact (final (main env)) = artifact_before env
  \/ (exists a code,
        In a (attempts (main env))
        /\ att_code a = Some code
        /\ att_write a = Some Written
        /\ artifact (final (main env)) = Some code
        /\ code <> EmptyString
        /\ strip code = code
        /\ has_fence code = false)
  \/ (exists a e kept,
        In a (attempts (main env))
        /\ att_write a = Some (WriteRaised e kept)
        /\ artifact (final (main env)) = Some kept
        /\ ending_of (main env) = Unhandled (Error e)).
Proof.
  rewrite main_artifact.
  destruct (file_after_cases (artifact_before env) (attempts (main env)))
    as [E|[(a & code & Hin & W & C & E)|(a & e & kept & Hin & W & E)]].
  - left; exact E.
  - right; left. exists a, code.
    destruct (attempts_In a Hin) as (k & _ & Ek). subst a.
    destruct (written_is_clean k code W C) as (H1 & H2 & H3). auto 10.
  - right; right. exists a, e, kept. repeat split; auto.
    apply (main_ends_by a (Error e) Hin). unfold raise_of. rewrite W. reflexivity.
Qed.

(** ** The success lines *)

Lemma loop_saved (todo : list nat) (st : state) :
  hd_error (printed (final (attempts_loop env todo st))) = Some ParserSaved ->
  exists i a, nth_error (turns env todo) i = Some a /\ passed a = true.
Proof.
  revert st; induction todo as [|k rest IH]; intros st; [discriminate|].
  cbn [attempts_loop turns]. unfold turn, escaped, write_failed.
  destruct (generate_parser_code (generate_content env k)) as [[|c code]|] eqn:G;
    cbn -[passed].
  - intros H. destruct (IH _ H) as (i & a & Hi & Hp). exists (S i), a. auto.
  - destruct (write_file env k (String c code)) as [|e|e kept] eqn:W; cbn -[passed];
      try discriminate.
    destruct (test_parser _ _) as [[|] reason|x] eqn:T; cbn -[passed].
    + intros _. exists 0. eexists. split; [reflexivity|]. reflexivity.
    + intros H.
      assert (H' : exists i a, nth_error (turns env rest) i = Some a /\ passed a = true).
      { destruct (Nat.eqb k 3); apply (IH _ H). }
      destruct H' as (i & a & Hi & Hp). exists (S i), a. auto.
    + discriminate.
  - intros H. destruct (IH _ H) as (i & a & Hi & Hp). exists (S i), a. auto.
Qed.

Lemma main_saved :
  last_line (main env) = Some ParserSaved ->
  exists st, main env = attempts_loop env (seq 1 3) st /\ history st = []
             /\ artifact st = artifact_before env.
Proof.
  unfold last_line, main.
  destruct (pdf_exists env); cbn [negb]; [|discriminate].
  destruct (csv_exists env); cbn [negb]; [|discriminate].
  destruct (extract_text_from_pdf (open_pdf env)) as [text|]; [|discriminate].
  destruct (analyze_csv_file (read_csv env 0)) as [[df info]|]; [|discriminate].
  intros _. eexists. split; [reflexivity|]. split; reflexivity.
Qed.

(** X10. A run ends on the success lines only if the code in the file at
    the artifact path passed: it is the code one of the attempts 1, 2, 3
    generated, and the test of that attempt, on that code, returned
    success with the message "Parser test passed!". *)
Theorem X10_success_is_earned :
  last_line (main env) = Some ParserSaved ->
  exists k code,
    In k (seq 1 3)
    /\ generate_parser_code (generate_content env k) = Some code
    /\ test_parser (exec_module env k code) (read_csv env k)
       = Verdict true "Parser test passed!"
    /\ artifact (final (main env)) = Some code.
Proof.
  intros H. destruct (main_saved H) as (st & E & Hh & Ha).
  unfold last_line in H. rewrite E in H |- *.
  destruct (loop_saved _ _ H) as (i & a & Hi & Hp).
  assert (Hlen : length (turns env (seq 1 3)) = S i).
  { apply (turns_stop env _ _ _ Hi). rewrite Hp. reflexivity. }
  destruct (turns_nth env _ _ _ Hi) as (k & Hk & ->).
  exists k.
  rewrite loop_artifact, Ha, (nth_error_last _ _ _ Hi Hlen), file_after_app.
  revert Hp. unfold passed, turn, left_by.
  destruct (generate_parser_code (generate_content env k)) as [[|c code]|] eqn:G; cbn;
    try discriminate.
  destruct (write_file env k (String c code)) as [|e|e kept] eqn:W; cbn; try discriminate.
  destruct (test_parser (exec_module env k (String c code)) (read_csv env k))
    as [[|] message|x] eqn:T; try discriminate.
  intros _. exists (String c code). split; [exact (nth_error_In (seq 1 3) i Hk)|].
  split; [reflexivity|]. split; [|reflexivity].
  destruct (success_means_equal _ _ _ T) as [-> _]. exact T.
Qed.

End MoreRuns.

Section MoreRunsWitnesses.
Import Python Pandas Agent Observations Samples.

(** The run whose second attempt passes. *)
Lemma X10_witness :
  exists k code,
    In k (seq 1 3)
    /\ generate_parser_code (generate_content passes_second k) = Some code
    /\ test_parser (exec_module passes_second k code) (read_csv passes_second k)
       = Verdict true "Parser test passed!"
    /\ artifact (final (main passes_second)) = Some code.
Proof. apply (X10_success_is_earned passes_second). reflexivity. Defined.

End MoreRunsWitnesses.

(* ================================================================== *)
(** * Further properties: the example parser *)

Section ExampleParser.
Import Python IciciParser IciciRows RowObservations.

(** ** Commas *)

Lemma rstrip_empty (s : string) :
  rstrip s = EmptyString -> all_chars is_space s = true.
Proof.
  induction s as [|c s IH]; [reflexivity|].
  rewrite rstrip_cons. destruct (rstrip s) as [|d r]; [|discriminate].
  destruct (is_space c) eqn:Sp; [|discriminate].
  intros _. cbn [all_chars]. rewrite Sp, IH; reflexivity.
Qed.

Lemma strip_empty (s : string) :
  strip s = EmptyString -> all_chars is_space s = true.
Proof.
  unfold strip. induction s as [|c s IH]; [reflexivity|].
  cbn [lstrip all_chars]. destruct (is_space c) eqn:Sp.
  - intros H. rewrite (IH H). reflexivity.
  - intros H. apply rstrip_empty in H. cbn [all_chars] in H. rewrite Sp in H.
    discriminate H.
Qed.

Lemma remove_char_blank (s : string) :
  all_chars is_space s = true -> remove_char "," s = s.
Proof.
  induction s as [|c s IH]; [reflexivity|].
  cbn [all_chars remove_char]. intros H. apply andb_prop in H as [Hc Hs].
  destruct (Ascii.eqb_spec c ",") as [->|_]; [discriminate Hc|].
  rewrite (IH Hs). reflexivity.
Qed.

Lemma remove_char_idempotent (c : ascii) (s : string) :
  remove_char c (remove_char c s) = remove_char c s.
Proof.
  induction s as [|d s IH]; [reflexivity|].
  cbn [remove_char]. destruct (Ascii.eqb d c) eqn:E; [exact IH|].
  cbn [remove_char]. rewrite E, IH. reflexivity.
Qed.

(** X13. The helper does not see thousands separators: an amount string
    and the same string without its commas are converted to the same
    value, for every string. *)
Theorem X13_commas_do_not_matter (s : string) :
  clean_and_convert_num (Some (remove_char "," s)) = clean_and_convert_num (Some s).
Proof.
  unfold clean_and_convert_num. rewrite remove_char_idempotent.
  destruct (String.eqb_spec (strip s) EmptyString) as [E|N].
  - rewrite (remove_char_blank s (strip_empty s E)), E. reflexivity.
  - destruct (String.eqb_spec (strip (remove_char "," s)) EmptyString) as [E'|_];
      [|reflexivity].
    rewrite E'. reflexivity.
Qed.

(** ** Negative amounts *)

Lemma drop_underscores_minus (s : string) :
  drop_underscores zero (String "-" s) = option_map (String "-") (drop_underscores "-" s).
Proof. reflexivity. Qed.

Lemma float_unfold (t : string) (c : ascii) (u : string) :
  float_rstrip (float_lstrip t) = String c u ->
  float t
  = match drop_underscores zero (String c u) with
    | None => None
    | Some v =>
        let '(neg, body) := take_sign v in
        let name := lowercase body in
        if String.eqb name "inf" || String.eqb name "infinity" then Some (FInf neg)
        else if String.eqb name "nan" then Some FNaN
        else
          match parse_decimal body with
          | Some (m, e) => Some (binary64 neg (scaled m e))
          | None => None
          end
    end.
Proof. intros E. unfold float. rewrite E. reflexivity. Qed.

Lemma float_negative (s : string) :
  all_chars plain_char s = true ->
  1 <= count_chars is_digit s ->
  count_chars (Ascii.eqb ".") s <= 1 ->
  float (String "-" s)
  = Some (binary64 true (scaled (digits_number 0 s) (- Z.of_nat (digits_after_point s)))).
Proof.
  intros Hp Hd Hn.
  pose proof (parse_decimal_plain s Hp Hd Hn) as Hparse.
  pose proof (drop_underscores_plain s "-" eq_refl Hp) as Hund.
  assert (Hr : float_rstrip (float_lstrip (String "-" s)) = String "-" s).
  { change (float_lstrip (String "-" s)) with (String "-" s).
    apply float_rstrip_no_space. cbn [all_chars].
    change (negb (float_is_space "-")) with true. cbn [andb].
    revert Hp. apply all_chars_impl.
    intros c Hc. rewrite (plain_not_float_space c Hc). reflexivity. }
  rewrite (float_unfold _ _ _ Hr), drop_underscores_minus, Hund.
  cbn [option_map]. change (take_sign (String "-" s)) with (true, s). cbv zeta.
  destruct (has_digit_nonempty s Hd) as (c & s' & ->).
  pose proof Hp as Hc. cbn [all_chars] in Hc. apply andb_prop in Hc as [Hc _].
  rewrite (not_a_name c "i" s' "nf" Hc eq_refl),
          (not_a_name c "i" s' "nfinity" Hc eq_refl),
          (not_a_name c "n" s' "an" Hc eq_refl).
  cbn [orb]. rewrite Hparse. reflexivity.
Qed.

(** X14. An amount written with a leading minus sign is converted to the
    negative of the number its digits denote: the nearest binary64 with
    the sign set, commas dropped as before. *)
Theorem X14_negative_amounts (s : string) :
  is_amount s = true ->
  clean_and_convert_num (Some (String "-" s)) = binary64 true (amount_value s).
Proof.
  unfold is_amount. intros H.
  apply andb_prop in H as [H Hn]; apply andb_prop in H as [Ha Hd].
  apply Nat.leb_le in Hn, Hd.
  pose proof (remove_char_plain s Ha) as Hp.
  assert (Hns : all_chars (fun c => negb (is_space c)) (String "-" (remove_char "," s)) = true).
  { cbn [all_chars]. change (negb (is_space "-")) with true. cbn [andb].
    revert Hp. apply all_chars_impl.
    intros c Hc. rewrite (plain_not_space c Hc). reflexivity. }
  assert (Hns' : all_chars (fun c => negb (is_space c)) (String "-" s) = true).
  { cbn [all_chars]. change (negb (is_space "-")) with true. cbn [andb].
    revert Ha. apply all_chars_impl.
    intros c Hc. rewrite (is_space_amount c Hc). reflexivity. }
  unfold clean_and_convert_num. rewrite (strip_no_space _ Hns').
  change (String.eqb (String "-" s) EmptyString) with false. cbn iota.
  change (remove_char "," (String "-" s)) with (String "-" (remove_char "," s)).
  rewrite (strip_no_space _ Hns), float_negative.
  - rewrite remove_char_digits_number, remove_char_digits_after_point, scaled_amount.
    reflexivity.
  - exact Hp.
  - rewrite remove_char_count; [exact Hd | reflexivity].
  - rewrite remove_char_count; [exact Hn | reflexivity].
Qed.

Lemma X14_witness :
  clean_and_convert_num (Some "-1,000.50") = binary64 true (amount_value "1,000.50").
Proof. apply X14_negative_amounts. reflexivity. Defined.

(** ** The header row *)

Lemma index_of_found (x : string) (l : list string) (i : nat) :
  index_of x l = Some i ->
  i < length l /\ nth i l EmptyString = x
  /\ forall j, j < i -> nth j l EmptyString <> x.
Proof.
  revert i; induction l as [|y l IH]; intros i; cbn [index_of]; [discriminate|].
  destruct (String.eqb_spec y x) as [->|N].
  - intros E. injection E as <-. cbn. repeat split; [lia | intros j Hj; lia].
  - destruct (index_of x l) as [k|]; [|discriminate]. cbn [option_map].
    intros E. injection E as <-. destruct (IH k eq_refl) as (Hk & Hn & Hb).
    cbn [length nth]. repeat split; [lia | exact Hn |].
    intros [|j] Hj; [exact N | apply Hb; lia].
Qed.

Lemma nth_cleaned (i : nat) (r : row) :
  nth i (map cleaned r) EmptyString = cleaned (cell_at i r).
Proof. unfold cell_at. change EmptyString with (cleaned None). apply map_nth. Qed.

Lemma max_opt_le (a : nat) (b : option nat) :
  a <= max_opt a b /\ forall i, b = Some i -> i <= max_opt a b.
Proof.
  destruct b as [n|]; cbn [max_opt]; split; try lia.
  - intros i E. injection E as <-. lia.
  - discriminate.
Qed.

Lemma max_valid_idx_bounds (h : header) :
  date_idx h <= max_valid_idx h /\ desc_idx h <= max_valid_idx h
  /\ balance_idx h <= max_valid_idx h
  /\ (forall i, debit_idx h = Some i -> i <= max_valid_idx h)
  /\ (forall i, credit_idx h = Some i -> i <= max_valid_idx h).
Proof.
  unfold max_valid_idx.
  set (m := Nat.max (Nat.max (date_idx h) (desc_idx h)) (balance_idx h)).
  destruct (max_opt_le m (debit_idx h)) as [H1 H2].
  destruct (max_opt_le (max_opt m (debit_idx h)) (credit_idx h)) as [H3 H4].
  repeat split; try (unfold m in *; lia).
  - intros i E. specialize (H2 i E). lia.
  - exact H4.
Qed.

Lemma header_positions (r : row) (h : header) :
  header_of r = Some h ->
  date_idx h < desc_idx h /\ desc_idx h < balance_idx h
  /\ cleaned (cell_at (date_idx h) r) = "Date"
  /\ cleaned (cell_at (desc_idx h) r) = "Description"
  /\ cleaned (cell_at (balance_idx h) r) = "Balance"
  /\ (forall i, debit_idx h = Some i -> cleaned (cell_at i r) = "Debit Amt")
  /\ (forall i, credit_idx h = Some i -> cleaned (cell_at i r) = "Credit Amt")
  /\ (forall j, j < date_idx h -> cleaned (cell_at j r) <> "Date")
  /\ max_valid_idx h < length r.
Proof.
  unfold header_of.
  destruct (index_of "Date" (map cleaned r)) as [d|] eqn:Ed; [|discriminate].
  destruct (index_of "Description" (map cleaned r)) as [s|] eqn:Es; [|discriminate].
  destruct (index_of "Balance" (map cleaned r)) as [b|] eqn:Eb; [|discriminate].
  destruct (Nat.ltb d s && Nat.ltb s b) eqn:Ord; [|discriminate].
  intros E. injection E as <-.
  apply andb_prop in Ord as [O1 O2]. apply Nat.ltb_lt in O1, O2.
  destruct (index_of_found _ _ _ Ed) as (Ld & Nd & Bd).
  destruct (index_of_found _ _ _ Es) as (Ls & Ns & _).
  destruct (index_of_found _ _ _ Eb) as (Lb & Nb & _).
  rewrite length_map in Ld, Ls, Lb. rewrite nth_cleaned in Nd, Ns, Nb.
  cbn [date_idx desc_idx balance_idx debit_idx credit_idx].
  assert (Hdebit : forall i, index_of "Debit Amt" (map cleaned r) = Some i ->
                             i < length r /\ cleaned (cell_at i r) = "Debit Amt").
  { intros i Ei. destruct (index_of_found _ _ _ Ei) as (L & N & _).
    rewrite length_map in L. rewrite nth_cleaned in N. auto. }
  assert (Hcredit : forall i, index_of "Credit Amt" (map cleaned r) = Some i ->
                              i < length r /\ cleaned (cell_at i r) = "Credit Amt").
  { intros i Ei. destruct (index_of_found _ _ _ Ei) as (L & N & _).
    rewrite length_map in L. rewrite nth_cleaned in N. auto. }
  repeat split; auto.
  - intros i Ei. apply (Hdebit i Ei).
  - intros i Ei. apply (Hcredit i Ei).
  - intros j Hj. rewrite <- nth_cleaned. apply Bd. exact Hj.
  - unfold max_valid_idx. cbn [date_idx desc_idx balance_idx debit_idx credit_idx].
    destruct (index_of "Debit Amt" (map cleaned r)) as [i|] eqn:Ei;
      destruct (index_of "Credit Amt" (map cleaned r)) as [k|] eqn:Ek; cbn [max_opt];
      try (pose proof (proj1 (Hdebit i eq_refl)));
      try (pose proof (proj1 (Hcredit k eq_refl))); lia.
Qed.


(** X15. A row is taken as the header only if it holds Date, Description
    and Balance in this order from the left; the positions recorded are
    those of these names (the leftmost ones, blanks around a name not
    counting), optional columns are recorded where their names stand, and
    every recorded position, hence the largest, lies inside the row. *)
Theorem X15_header_positions (r : row) (h : header) :
  header_of r = Some h ->
  date_idx h < desc_idx h /\ desc_idx h < balance_idx h
  /\ cleaned (cell_at (date_idx h) r) = "Date"
  /\ cleaned (cell_at (desc_idx h) r) = "Description"
  /\ cleaned (cell_at (balance_idx h) r) = "Balance"
  /\ (forall i, debit_idx h = Some i -> cleaned (cell_at i r) = "Debit Amt")
  /\ (forall i, credit_idx h = Some i -> cleaned (cell_at i r) = "Credit Amt")
  /\ (forall j, j < date_idx h -> cleaned (cell_at j r) <> "Date")
  /\ max_valid_idx h < length r.
Proof. apply header_positions. Qed.

Lemma X15_witness :
  header_of usual_header = Some (mk_header 0 1 (Some 2) (Some 3) 4)
  /\ max_valid_idx (mk_header 0 1 (Some 2) (Some 3) 4) < length usual_header.
Proof.
  split; [reflexivity|].
  apply (X15_header_positions usual_header (mk_header 0 1 (Some 2) (Some 3) 4) eq_refl).
Defined.

(** ** The transactions *)

Lemma nth_error_nth_cell (i : nat) (r : row) :
  i < length r -> nth_error r i = Some (cell_at i r).
Proof. intros H. unfold cell_at. apply nth_error_nth'. exact H. Qed.

Lemma cleaned_empty (c : option string) :
  String.eqb (cleaned c) EmptyString = true <-> cleaned c = EmptyString.
Proof. apply String.eqb_eq. Qed.

(** One row gives a transaction exactly when it is usable, and then the
    one read off it. *)
Lemma transaction_of_usable (h : header) (r : row) :
  transaction_of h r = if usable h r then Some (read_off h r) else None.
Proof.
  unfold transaction_of, usable.
  destruct (max_valid_idx_bounds h) as (Bd & Bs & Bb & _).
  destruct (Nat.leb_spec (length r) (max_valid_idx h)) as [Short|Long].
  - destruct (Nat.ltb_spec (max_valid_idx h) (length r)); [lia | reflexivity].
  - destruct (Nat.ltb_spec (max_valid_idx h) (length r)) as [_|]; [|lia].
    rewrite !nth_error_nth_cell by lia. cbn [andb].
    unfold read_off.
    destruct (cleaned (cell_at (date_idx h) r)) as [|c date] eqn:Ed; [reflexivity|].
    change (String.eqb (String c date) EmptyString) with false. cbn [negb andb].
    destruct (notna (clean_and_convert_num (cell_at (balance_idx h) r))); reflexivity.
Qed.

Lemma collect_filter (h : header) (data_rows : list row) :
  collect h data_rows = map (read_off h) (filter (usable h) data_rows).
Proof.
  induction data_rows as [|r rest IH]; [reflexivity|].
  cbn [collect filter]. rewrite transaction_of_usable.
  destruct (usable h r); cbn [map]; rewrite IH; reflexivity.
Qed.

Lemma transactions_rows (rows : list row) :
  transactions_data rows
  = match find_header 0 rows with
    | None => []
    | Some (header_row_idx, h) =>
        map (read_off h) (filter (usable h) (skipn (S header_row_idx) rows))
    end.
Proof.
  unfold transactions_data.
  destruct (find_header 0 rows) as [[i h]|]; [apply collect_filter | reflexivity].
Qed.

(** X16. The transactions are exactly the rows after the header row that
    are long enough for the header, have a date and a balance that is a
    number, in the order of the rows, each read off its row (date and
    description without surrounding blanks, the three amounts converted);
    the try/except of the loop never has anything to catch.  Without a
    header row there are none. *)
Theorem X16_transactions_are_the_usable_rows (rows : list row) :
  transactions_data rows
  = match find_header 0 rows with
    | None => []
    | Some (header_row_idx, h) =>
        map (read_off h) (filter (usable h) (skipn (S header_row_idx) rows))
    end.
Proof. apply transactions_rows. Qed.

Lemma cleaned_stripped (c : option string) : strip (cleaned c) = cleaned c.
Proof.
  destruct c as [[|a s]|]; [reflexivity | | reflexivity].
  cbn [cleaned]. apply strip_idempotent.
Qed.

(** X17. Every transaction extracted has a date that is not empty and a
    balance that is a number (not NaN), and its date and description have
    no blank at either end. *)
Theorem X17_transactions_are_sound (rows : list row) (t : transaction) :
  In t (transactions_data rows) ->
  t_date t <> EmptyString
  /\ t_balance t <> FNaN
  /\ strip (t_date t) = t_date t
  /\ strip (t_desc t) = t_desc t.
Proof.
  rewrite transactions_rows. intros H.
  destruct (find_header 0 rows) as [[i h]|]; [|destruct H].
  apply in_map_iff in H as (r & <- & Hr). apply filter_In in Hr as [_ Hu].
  unfold usable in Hu. apply andb_prop in Hu as [Hu Hb]. apply andb_prop in Hu as [_ Hd].
  cbn [read_off t_date t_balance t_desc]. repeat split.
  - intros E. rewrite E in Hd. discriminate Hd.
  - intros E. rewrite E in Hb. discriminate Hb.
  - apply cleaned_stripped.
  - apply cleaned_stripped.
Qed.

Lemma X17_witness :
  transactions_data statement = [salary; rent]
  /\ t_date rent <> EmptyString
  /\ t_balance rent <> FNaN
  /\ strip (t_date rent) = t_date rent
  /\ strip (t_desc rent) = t_desc rent.
Proof.
  split; [vm_compute; reflexivity|].
  apply (X17_transactions_are_sound statement rent).
  vm_compute. right; left; reflexivity.
Defined.

(** ** A header row among the data rows *)

Lemma rstrip_without_commas (s t : string) :
  rstrip s = t -> all_chars no_comma t = true -> rstrip (remove_char "," s) = t.
Proof.
  revert t; induction s as [|c s IH]; intros t; [intros <- _; reflexivity|].
  rewrite rstrip_cons. destruct (rstrip s) as [|d r] eqn:R.
  - specialize (IH EmptyString eq_refl eq_refl).
    destruct (is_space c) eqn:Sp; intros <- Ht.
    + cbn [remove_char]. destruct (Ascii.eqb_spec c ",") as [->|_]; [discriminate Sp|].
      rewrite rstrip_cons, IH, Sp. reflexivity.
    + cbn [all_chars] in Ht. apply andb_prop in Ht as [Hc _].
      unfold no_comma in Hc. apply negb_true_iff in Hc.
      cbn [remove_char]. rewrite Hc, rstrip_cons, IH, Sp. reflexivity.
  - intros <- Ht. cbn [all_chars] in Ht. apply andb_prop in Ht as [Hc Hr].
    unfold no_comma in Hc. apply negb_true_iff in Hc.
    cbn [remove_char]. rewrite Hc, rstrip_cons, (IH _ eq_refl Hr). reflexivity.
Qed.

Lemma strip_without_commas (s t : string) :
  strip s = t -> all_chars no_comma t = true -> strip (remove_char "," s) = t.
Proof.
  unfold strip. induction s as [|c s IH]; [intros <- _; reflexivity|].
  cbn [lstrip]. destruct (is_space c) eqn:Sp.
  - intros E Ht. cbn [remove_char].
    destruct (Ascii.eqb_spec c ",") as [->|_]; [discriminate Sp|].
    cbn [lstrip]. rewrite Sp. apply IH; assumption.
  - intros E Ht. destruct (rstrip_keeps_head c s Sp) as [r Er].
    assert (Hc : Ascii.eqb c "," = false).
    { rewrite Er in E. subst t. cbn [all_chars] in Ht.
      apply andb_prop in Ht as [Hc _]. apply negb_true_iff in Hc. exact Hc. }
    pose proof (rstrip_without_commas _ _ E Ht) as H.
    cbn [remove_char] in H |- *. rewrite Hc in H |- *.
    cbn [lstrip]. rewrite Sp. exact H.
Qed.

(** A cell that reads as a word without commas converts as the word
    does. *)
Lemma clean_and_convert_num_word (c : option string) (a : ascii) (w : string) :
  cleaned c = String a w -> all_chars no_comma (String a w) = true ->
  clean_and_convert_num c
  = match float (String a w) with Some x => x | None => nan end.
Proof.
  destruct c as [[|b s]|]; try discriminate.
  cbn [cleaned]. intros E Ht. unfold clean_and_convert_num.
  rewrite E. change (String.eqb (String a w) EmptyString) with false. cbv iota.
  rewrite (strip_without_commas _ _ E Ht). reflexivity.
Qed.

(** X18. A row that itself reads as a header with Balance at the position
    of the header in force (as when a later page repeats the header) never
    gives a transaction: its balance is the word Balance, not a number. *)
Theorem X18_repeated_header_is_dropped (h h' : header) (r : row) :
  header_of r = Some h' -> balance_idx h' = balance_idx h ->
  transaction_of h r = None.
Proof.
  intros Hh Eb. rewrite transaction_of_usable.
  destruct (header_positions r h' Hh) as (_ & _ & _ & _ & Bal & _).
  rewrite Eb in Bal.
  unfold usable.
  rewrite (clean_and_convert_num_word _ _ _ Bal eq_refl).
  replace (float "Balance") with (@None pyfloat) by (vm_compute; reflexivity).
  cbn [nan notna]. rewrite andb_false_r. reflexivity.
Qed.

Lemma X18_witness :
  let repeated := [Some " Date"; Some "Description"; Some "Debit Amt";
                   Some "Credit Amt"; Some "Balance "] in
  find_header 0 statement = Some (1, statement_header)
  /\ In repeated (skipn 2 statement)
  /\ transaction_of statement_header repeated = None.
Proof.
  cbv zeta. split; [reflexivity|]. split; [vm_compute; tauto|].
  apply (X18_repeated_header_is_dropped statement_header statement_header);
    reflexivity.
Defined.

End ExampleParser.
